(** * Immortal Stack webhook server: signature verification, token
    authentication, GitHub event handlers and the ClickUp task client.

    Shallow embedding of
      - handlers/githubHandler.js  (processGithubEvent and its handlers,
        createClickUpTask, logEventToMongoDB),
      - middleware/auth.js         (authenticateWebhook),
      - routes/github.js           (verifyGithubSignature, POST /webhook),
      - routes/webhooks.js         (POST /make/:scenarioId),
      - server.js                  (the body parser in front of the
        routers, mounting and the error middleware).

    JavaScript strings are modelled as [string]: a sequence of code units
    below 256 (Latin-1), which is exactly how Node decodes header values.
    Label names, which come from the JSON body, are lists of UTF-16 code
    units.  Byte buffers are lists of [Z] in [0, 256).  A computation
    threads the list of effects performed so far (console lines and
    [axios.post] calls) and either returns or throws; [await] is
    sequencing.  The environment, the ClickUp API, the body parser,
    [JSON.stringify] and the clock are parameters of the modules that use
    them.  A route is modelled for a request whose [req.body] the parser
    has set to a value; the endpoints of [Server] put the parser in
    front. *)

From Stdlib Require Import ZArith Ascii String List Lia.
From stdpp Require Import base option list strings gmap pretty.

Local Open Scope Z_scope.

(** ** JavaScript string primitives *)

Module JsString.

Definition code (c : ascii) : Z := Z.of_N (N_of_ascii c).

Definition chars (s : string) : list ascii := list_ascii_of_string s.

(** [s.startsWith(p)] *)
Fixpoint startsWith (p s : string) : bool :=
  match p, s with
  | EmptyString, _ => true
  | String a p', String b s' => if ascii_dec a b then startsWith p' s' else false
  | String _ _, EmptyString => false
  end.

(** [s.includes(p)] *)
Fixpoint includes (p s : string) : bool :=
  startsWith p s ||
  match s with
  | EmptyString => false
  | String _ s' => includes p s'
  end.

Fixpoint drop (n : nat) (s : string) : string :=
  match n, s with
  | O, _ => s
  | S n', String _ s' => drop n' s'
  | S _, EmptyString => EmptyString
  end.

(** [s.replace(p, r)] with a string pattern: the first occurrence only. *)
Fixpoint replace (p r s : string) : string :=
  if startsWith p s then r +:+ drop (String.length p) s
  else match s with
       | EmptyString => EmptyString
       | String c s' => String c (replace p r s')
       end.

(** [s.split('\n')[0]]: the text before the first line feed. *)
Fixpoint first_line (s : string) : string :=
  match s with
  | EmptyString => EmptyString
  | String c s' => if ascii_dec c "010"%char then EmptyString
                   else String c (first_line s')
  end.

(** Lower-casing of one Latin-1 code unit: A-Z, and the accented capitals
    U+00C0..U+00DE except the multiplication sign U+00D7. *)
Definition lower_char (c : ascii) : ascii :=
  let n := code c in
  if ((65 <=? n) && (n <=? 90)) || ((192 <=? n) && (n <=? 222) && negb (n =? 215))
  then ascii_of_N (Z.to_N (n + 32))
  else c.

(** [s.toLowerCase()] *)
Fixpoint toLowerCase (s : string) : string :=
  match s with
  | EmptyString => EmptyString
  | String c s' => String (lower_char c) (toLowerCase s')
  end.

(** The string with the code unit at index [i] replaced by [c]. *)
Fixpoint set_char (i : nat) (c : ascii) (s : string) : string :=
  match s, i with
  | EmptyString, _ => EmptyString
  | String _ s', O => String c s'
  | String a s', S i' => String a (set_char i' c s')
  end.

(** [s.slice(0, n)] *)
Fixpoint take (n : nat) (s : string) : string :=
  match n, s with
  | S n', String a s' => String a (take n' s')
  | _, _ => EmptyString
  end.

(** [xs.join(sep)] *)
Fixpoint join (sep : string) (xs : list string) : string :=
  match xs with
  | [] => ""
  | [x] => x
  | x :: rest => x +:+ sep +:+ join sep rest
  end.

End JsString.

(** ** Text outside Latin-1

    Label names are kept as UTF-16 code units, because a code unit above
    U+00FF decides whether a label matches. *)

Module Utf16.

Definition of_string (s : string) : list N := map N_of_ascii (JsString.chars s).

(** Lower case of one code unit.  The table holds every code unit whose
    lower case has a unit below U+0100: A-Z, the Latin-1 capitals, U+0130
    (i and a combining dot), U+0178, U+1E9E, the Kelvin sign U+212A (k)
    and the Angstrom sign U+212B.  Every other code unit is left as it is:
    its lower case, where it has one, is again above U+00FF, so comparing
    the lower-cased text with text below U+0100 is unaffected. *)
Definition lower_unit (u : N) : list N :=
  (if ((65 <=? u) && (u <=? 90)) || ((192 <=? u) && (u <=? 222) && negb (u =? 215))
   then [u + 32]
   else if u =? 304 then [105; 775]
   else if u =? 376 then [255]
   else if u =? 7838 then [223]
   else if u =? 8490 then [107]
   else if u =? 8491 then [229]
   else [u])%N.

(** [t.toLowerCase()] *)
Definition toLowerCase (t : list N) : list N := flat_map lower_unit t.

(** [xs.join(sep)] *)
Fixpoint join (sep : list N) (xs : list (list N)) : list N :=
  match xs with
  | [] => []
  | [x] => x
  | x :: rest => x ++ sep ++ join sep rest
  end.

End Utf16.

(** ** Buffers and the crypto module *)

Module Buffer.

(** [Buffer.from(s)]: the UTF-8 encoding of the string. *)
Definition utf8_char (c : ascii) : list Z :=
  let n := JsString.code c in
  if n <? 128 then [n]
  else [Z.lor 192 (Z.shiftr n 6); Z.lor 128 (Z.land n 63)].

Fixpoint from (s : string) : list Z :=
  match s with
  | EmptyString => []
  | String c s' => utf8_char c ++ from s'
  end.

Definition byteLength (s : string) : nat := length (from s).

Fixpoint equal (a b : list Z) : bool :=
  match a, b with
  | [], [] => true
  | x :: a', y :: b' => (x =? y) && equal a' b'
  | _, _ => false
  end.

(** A code unit that UTF-8 encodes as a single byte. *)
Definition is_ascii (c : ascii) : Prop := JsString.code c < 128.

(** Decoding the first character of a UTF-8 buffer: the inverse of
    [utf8_char]. *)
Definition decode_char (bs : list Z) : option (ascii * list Z) :=
  match bs with
  | [] => None
  | b :: rest =>
      if b <? 128 then Some (ascii_of_N (Z.to_N b), rest)
      else match rest with
           | [] => None
           | b2 :: rest' =>
               Some (ascii_of_N (Z.to_N (Z.lor (Z.shiftl (Z.land b 3) 6) (Z.land b2 63))),
                     rest')
           end
  end.

End Buffer.

Module Sha256.

Definition mask32 : Z := 4294967295.
Definition w32 (x : Z) : Z := Z.land x mask32.
Definition add32 (x y : Z) : Z := w32 (x + y).
Definition rotr (n x : Z) : Z := w32 (Z.lor (Z.shiftr x n) (Z.shiftl x (32 - n))).
Definition not32 (x : Z) : Z := Z.lxor x mask32.

Definition Ch (x y z : Z) : Z := Z.lxor (Z.land x y) (Z.land (not32 x) z).
Definition Maj (x y z : Z) : Z :=
  Z.lxor (Z.lxor (Z.land x y) (Z.land x z)) (Z.land y z).
Definition bsig0 (x : Z) : Z := Z.lxor (Z.lxor (rotr 2 x) (rotr 13 x)) (rotr 22 x).
Definition bsig1 (x : Z) : Z := Z.lxor (Z.lxor (rotr 6 x) (rotr 11 x)) (rotr 25 x).
Definition ssig0 (x : Z) : Z := Z.lxor (Z.lxor (rotr 7 x) (rotr 18 x)) (Z.shiftr x 3).
Definition ssig1 (x : Z) : Z := Z.lxor (Z.lxor (rotr 17 x) (rotr 19 x)) (Z.shiftr x 10).

(** The constants of the algorithm are fractional parts of roots of the
    first primes, 32 bits each: square roots of the first eight for the
    initial hash value, cube roots of the first sixty-four for the rounds. *)
Definition primes : list Z :=
  [ 2; 3; 5; 7; 11; 13; 17; 19; 23; 29; 31; 37; 41; 43; 47; 53;
    59; 61; 67; 71; 73; 79; 83; 89; 97; 101; 103; 107; 109; 113; 127; 131;
    137; 139; 149; 151; 157; 163; 167; 173; 179; 181; 191; 193; 197; 199; 211; 223;
    227; 229; 233; 239; 241; 251; 257; 263; 269; 271; 277; 281; 283; 293; 307; 311 ].

(** The largest [r] in [lo, hi) with [r^3 <= n], by bisection. *)
Fixpoint cube_root_between (fuel : nat) (lo hi n : Z) : Z :=
  match fuel with
  | O => lo
  | S fuel' =>
      if hi - lo <=? 1 then lo
      else
        let mid := (lo + hi) / 2 in
        if mid * mid * mid <=? n then cube_root_between fuel' mid hi n
        else cube_root_between fuel' lo mid n
  end.

Definition cube_root (n : Z) : Z := cube_root_between 64 0 (Z.shiftl 1 36) n.

Definition K : list Z := map (fun p => w32 (cube_root (Z.shiftl p 96))) primes.

(** The eight working words. *)
Record state := State { ha : Z; hb : Z; hc : Z; hd : Z; he : Z; hf : Z; hg : Z; hh : Z }.

Definition root_bits (i : nat) : Z := w32 (Z.sqrt (Z.shiftl (nth i primes 0) 64)).

Definition H0 : state :=
  State (root_bits 0) (root_bits 1) (root_bits 2) (root_bits 3)
        (root_bits 4) (root_bits 5) (root_bits 6) (root_bits 7).

(** Padding: a one bit, zeros, and the 64-bit big-endian bit length. *)
Definition be_bytes (n : nat) (x : Z) : list Z :=
  map (fun i => Z.land (Z.shiftr x (8 * Z.of_nat i)) 255) (rev (seq 0 n)).

Definition pad (msg : list Z) : list Z :=
  let len := Z.of_nat (length msg) in
  let zeros := Z.to_nat ((55 - len) mod 64) in
  msg ++ [128] ++ repeat 0 zeros ++ be_bytes 8 (8 * len).

Fixpoint words_of (bs : list Z) : list Z :=
  match bs with
  | b0 :: b1 :: b2 :: b3 :: rest =>
      Z.lor (Z.shiftl b0 24) (Z.lor (Z.shiftl b1 16) (Z.lor (Z.shiftl b2 8) b3))
      :: words_of rest
  | _ => []
  end.

Fixpoint blocks (fuel : nat) (ws : list Z) : list (list Z) :=
  match fuel, ws with
  | S fuel', _ :: _ => firstn 16 ws :: blocks fuel' (skipn 16 ws)
  | _, _ => []
  end.

(** Message schedule, kept newest-first while it is extended to 64 words. *)
Fixpoint extend (n : nat) (rw : list Z) : list Z :=
  match n with
  | O => rw
  | S n' =>
      let w2 := nth 1 rw 0 in
      let w7 := nth 6 rw 0 in
      let w15 := nth 14 rw 0 in
      let w16 := nth 15 rw 0 in
      extend n' (add32 (add32 (add32 (ssig1 w2) w7) (ssig0 w15)) w16 :: rw)
  end.

Definition schedule (block : list Z) : list Z := rev (extend 48 (rev block)).

Definition round (s : state) (kw : Z * Z) : state :=
  let '(k, w) := kw in
  let t1 := add32 (add32 (add32 (add32 (hh s) (bsig1 (he s))) (Ch (he s) (hf s) (hg s))) k) w in
  let t2 := add32 (bsig0 (ha s)) (Maj (ha s) (hb s) (hc s)) in
  State (add32 t1 t2) (ha s) (hb s) (hc s) (add32 (hd s) t1) (he s) (hf s) (hg s).

Definition compress (h : state) (block : list Z) : state :=
  let s := fold_left round (combine K (schedule block)) h in
  State (add32 (ha h) (ha s)) (add32 (hb h) (hb s)) (add32 (hc h) (hc s))
        (add32 (hd h) (hd s)) (add32 (he h) (he s)) (add32 (hf h) (hf s))
        (add32 (hg h) (hg s)) (add32 (hh h) (hh s)).

Definition hash_state (msg : list Z) : state :=
  let ws := words_of (pad msg) in
  fold_left compress (blocks (length ws) ws) H0.

Definition state_bytes (s : state) : list Z :=
  be_bytes 4 (ha s) ++ be_bytes 4 (hb s) ++ be_bytes 4 (hc s) ++ be_bytes 4 (hd s) ++
  be_bytes 4 (he s) ++ be_bytes 4 (hf s) ++ be_bytes 4 (hg s) ++ be_bytes 4 (hh s).

Definition digest (msg : list Z) : list Z := state_bytes (hash_state msg).

(** [.digest('hex')]: lower-case hexadecimal, eight digits per word. *)
Definition hex_alphabet : list ascii :=
  ["0"; "1"; "2"; "3"; "4"; "5"; "6"; "7"; "8"; "9"; "a"; "b"; "c"; "d"; "e"; "f"]%char.

Definition hexdigit (n : Z) : ascii :=
  nth (Z.to_nat (Z.land n 15)) hex_alphabet "0"%char.

Definition hex32 (w : Z) : string :=
  String (hexdigit (Z.shiftr w 28)) (String (hexdigit (Z.shiftr w 24))
  (String (hexdigit (Z.shiftr w 20)) (String (hexdigit (Z.shiftr w 16))
  (String (hexdigit (Z.shiftr w 12)) (String (hexdigit (Z.shiftr w 8))
  (String (hexdigit (Z.shiftr w 4)) (String (hexdigit w) EmptyString))))))).

Definition state_hex (s : state) : string :=
  hex32 (ha s) +:+ hex32 (hb s) +:+ hex32 (hc s) +:+ hex32 (hd s) +:+
  hex32 (he s) +:+ hex32 (hf s) +:+ hex32 (hg s) +:+ hex32 (hh s).

End Sha256.

Module Crypto.

(** HMAC (RFC 2104) with SHA-256, block size 64. *)
Definition block_key (key : list Z) : list Z :=
  let k := if (64 <? Z.of_nat (length key)) then Sha256.digest key else key in
  k ++ repeat 0 (64 - length k)%nat.

Definition hmac_state (key msg : list Z) : Sha256.state :=
  let k := block_key key in
  let inner := Sha256.digest (map (Z.lxor 54) k ++ msg) in
  Sha256.hash_state (map (Z.lxor 92) k ++ inner).

(** [crypto.createHmac('sha256', key).update(payload).digest('hex')] *)
Definition createHmac_sha256_hex (key payload : string) : string :=
  Sha256.state_hex (hmac_state (Buffer.from key) (Buffer.from payload)).

Inductive compared :=
  | Compared (equal : bool)
  | LengthMismatch.

(** [crypto.timingSafeEqual(a, b)]: refuses buffers of different byte
    length (ERR_CRYPTO_TIMING_SAFE_EQUAL_LENGTH, a RangeError). *)
Definition timingSafeEqual (a b : list Z) : compared :=
  if Nat.eqb (length a) (length b) then Compared (Buffer.equal a b)
  else LengthMismatch.

End Crypto.

(** ** Errors, effects and the execution monad *)

Record js_error := JsError {
  error_name : string;
  error_message : string;
  (** [error.response.data] of a failed HTTP call, when the server answered *)
  error_response : option string
}.

Definition TypeError (msg : string) : js_error := JsError "TypeError" msg None.
Definition RangeError (msg : string) : js_error := JsError "RangeError" msg None.

(** What [crypto.timingSafeEqual] throws for buffers of different length. *)
Definition length_error : js_error :=
  RangeError "Input buffers must have the same byte length".

(** Reading a property of [undefined]. *)
Definition undefined_read (prop : string) : js_error :=
  TypeError ("Cannot read properties of undefined (reading '" +:+ prop +:+ "')").

Inductive outcome (A : Type) : Type :=
  | Ret (a : A)
  | Throw (e : js_error).
Arguments Ret {A} a.
Arguments Throw {A} e.

Inductive console_level := LOG | WARN | ERROR.

Inductive log_arg :=
  | Text (s : string)
  | ErrorObject (e : js_error).

(** The body and destination of one [axios.post] call. *)
Record axios_request := AxiosRequest {
  post_url : string;
  post_name : string;
  post_description : list N;         (* UTF-16: it quotes label names *)
  post_tags : list string;
  post_headers : list (string * string)
}.

(** [response.data] of a successful task creation. *)
Record clickup_task := ClickUpTask { created_id : string }.

Inductive effect :=
  | Console (level : console_level) (args : list log_arg)
  | HttpPost (r : axios_request).

(** A computation reads the effects so far and appends its own. *)
Definition M (A : Type) : Type := list effect -> outcome A * list effect.

Definition ret {A} (a : A) : M A := fun t => (Ret a, t).
Definition throw {A} (e : js_error) : M A := fun t => (Throw e, t).
Definition bind {A B} (m : M A) (k : A -> M B) : M B :=
  fun t => match m t with
           | (Ret a, t') => k a t'
           | (Throw e, t') => (Throw e, t')
           end.
(** [try { m } catch (error) { h error }] *)
Definition try_catch {A} (m : M A) (h : js_error -> M A) : M A :=
  fun t => match m t with
           | (Ret a, t') => (Ret a, t')
           | (Throw e, t') => h e t'
           end.

Declare Scope js_scope.
Delimit Scope js_scope with js.
Notation "x <- c1 ;; c2" := (bind c1 (fun x => c2))
  (at level 100, c1 at next level, right associativity) : js_scope.
Notation "c1 ;;; c2" := (bind c1 (fun _ => c2))
  (at level 100, right associativity) : js_scope.
Local Open Scope js_scope.

Definition emit (e : effect) : M unit := fun t => (Ret tt, t ++ [e]).
Definition console_log (args : list log_arg) : M unit := emit (Console LOG args).
Definition console_warn (args : list log_arg) : M unit := emit (Console WARN args).
Definition console_error (args : list log_arg) : M unit := emit (Console ERROR args).

(** [for (const x of xs) { await f x }] *)
Fixpoint for_of {A} (xs : list A) (f : A -> M unit) : M unit :=
  match xs with
  | [] => ret tt
  | x :: rest => f x ;;; for_of rest f
  end.

(** A value that must not be [undefined] where it is dereferenced. *)
Definition deref {A} (v : option A) (prop : string) : M A :=
  match v with
  | Some a => ret a
  | None => throw (undefined_read prop)
  end.

(** JavaScript truthiness of a string that may be [undefined]. *)
Definition truthy (v : option string) : bool :=
  match v with
  | Some (String _ _) => true
  | _ => false
  end.

(** [`${v}`] for a string that may be [undefined]. *)
Definition show (v : option string) : string := default "undefined" v.

Definition posts (t : list effect) : list axios_request :=
  omap (fun e => match e with HttpPost r => Some r | _ => None end) t.

(** ** GitHub payloads

    The fields the handlers read.  A top-level field that a given event's
    payload does not carry is [None] ([undefined] in the handler).  The
    numeric fields are the counters GitHub sends: integers far below
    2^53, which a template literal prints in plain decimal. *)

Record repository := Repository {
  repo_name : string;
  repo_full_name : string
}.

Record commit := Commit {
  commit_id : string;
  commit_message : string;
  commit_author_name : string;
  commit_added : list string;
  commit_modified : list string;
  commit_removed : list string;
  commit_url : string
}.

Record pull_request := PullRequest {
  pr_number : N;
  pr_title : string;
  pr_user_login : string;
  pr_body : option string;          (* null when the description is empty *)
  pr_base_ref : string;
  pr_changed_files : N;
  pr_additions : N;
  pr_deletions : N;
  pr_html_url : string
}.

Record label := Label { label_name : list N }.      (* UTF-16 code units *)

Record issue := Issue {
  issue_number : N;
  issue_title : string;
  issue_user_login : string;
  issue_body : option string;
  issue_labels : list label;
  issue_html_url : string
}.

Record github_body := GithubBody {
  body_ref : option string;
  body_repository : option repository;
  body_commits : option (list commit);
  body_action : option string;
  body_pull_request : option pull_request;
  body_issue : option issue
}.

(** The argument of [createClickUpTask]. *)
Record task_record := TaskRecord {
  task_name : string;
  task_description : list N;
  task_listId : option string;
  task_tags : list string
}.

(** What [processGithubEvent] returns. *)
Record result := Result {
  result_status : string;
  result_message : string
}.

(** ** handlers/githubHandler.js *)

Module GithubHandler.
Section Handler.

(** [process.env] *)
Variable env : gmap string string.
(** The ClickUp API as seen through [axios.post]: its answer may depend
    on everything that happened before. *)
Variable axios : list effect -> axios_request -> outcome clickup_task.
(** [JSON.stringify(data, null, space)] *)
Variable JSON_stringify : nat -> github_body -> string.

Definition CLICKUP_API_TOKEN : option string := env !! "CLICKUP_API_TOKEN".
Definition CLICKUP_API_URL : string := "https://api.clickup.com/api/v2".

Definition DEV_BACKLOG : option string := env !! "CLICKUP_DEV_BACKLOG_LIST_ID".
Definition CODE_REVIEWS : option string := env !! "CLICKUP_CODE_REVIEWS_LIST_ID".
Definition TODO : option string := env !! "CLICKUP_TODO_LIST_ID".

Definition axios_post (r : axios_request) : M clickup_task :=
  fun t => (axios t r, t ++ [HttpPost r]).

(** The request [createClickUpTask] sends for a record, given the token
    and the list identifier. *)
Definition task_request (token listId : string) (task : task_record) : axios_request :=
  {| post_url := CLICKUP_API_URL +:+ "/list/" +:+ listId +:+ "/task";
     post_name := task_name task;
     post_description := task_description task;
     post_tags := task_tags task;
     post_headers := [("Authorization", token); ("Content-Type", "application/json")] |}.

(** The call made for a record once token and list are known. *)
Definition request_of (task : task_record) : axios_request :=
  task_request (show CLICKUP_API_TOKEN) (show (task_listId task)) task.

Definition createClickUpTask (task : task_record) : M (option clickup_task) :=
  if negb (truthy CLICKUP_API_TOKEN) then
    console_log [Text "ClickUp integration not configured (missing API token)"] ;;;
    ret None
  else if negb (truthy (task_listId task)) then
    console_log [Text "ClickUp list ID not configured"] ;;;
    ret None
  else
    try_catch
      (response <- axios_post (request_of task) ;;
       console_log [Text ("Created ClickUp task: " +:+ created_id response +:+
                          " - " +:+ task_name task)] ;;;
       ret (Some response))
      (fun error =>
         console_error [Text "Error creating ClickUp task:"; Text (error_message error)] ;;;
         match error_response error with
         | Some data => console_error [Text "ClickUp API response:"; Text data]
         | None => ret tt
         end ;;;
         throw error).

Definition mentions_todo (c : commit) : bool :=
  JsString.includes "todo" (JsString.toLowerCase (commit_message c)).

Definition push_task (repository : repository) (branch : string) (commit : commit)
  : task_record :=
  {| task_name := "TODO from commit: " +:+ JsString.first_line (commit_message commit);
     task_description := Utf16.of_string ("
# TODO from GitHub Commit

**Repository:** " +:+ repo_full_name repository +:+ "
**Branch:** " +:+ branch +:+ "
**Commit:** " +:+ commit_id commit +:+ "
**Author:** " +:+ commit_author_name commit +:+ "
**Message:**
```
" +:+ commit_message commit +:+ "
```

**Changes:**
- Added: " +:+ pretty (length (commit_added commit)) +:+ " files
- Modified: " +:+ pretty (length (commit_modified commit)) +:+ " files
- Removed: " +:+ pretty (length (commit_removed commit)) +:+ " files

**Commit URL:** " +:+ commit_url commit +:+ "
        ");
     task_listId := TODO;
     task_tags := ["github"; "todo"; "commit"] |}.

(** The body of the loop over the commits. *)
Definition push_step (repository : repository) (branch : string) (commit : commit)
  : M unit :=
  if mentions_todo commit then
    createClickUpTask (push_task repository branch commit) ;;; ret tt
  else ret tt.

Definition handlePushEvent (data : github_body) : M unit :=
  ref <- deref (body_ref data) "replace" ;;
  let branch := JsString.replace "refs/heads/" "" ref in
  repository <- deref (body_repository data) "full_name" ;;
  commits <- deref (body_commits data) "length" ;;
  console_log [Text ("Push to " +:+ repo_full_name repository +:+ " on branch " +:+
                     branch +:+ " with " +:+ pretty (length commits) +:+ " commits")] ;;;
  (* Check for TODO comments in commits *)
  for_of commits (push_step repository branch).

(** [s || 'No description provided'] *)
Definition or_no_description (s : option string) : string :=
  if truthy s then show s else "No description provided".

Definition pull_request_task (repository : repository) (pr : pull_request) : task_record :=
  {| task_name := "Review PR #" +:+ pretty (pr_number pr) +:+ ": " +:+ pr_title pr;
     task_description := Utf16.of_string ("
# Pull Request Review

**Repository:** " +:+ repo_full_name repository +:+ "
**PR Number:** #" +:+ pretty (pr_number pr) +:+ "
**Title:** " +:+ pr_title pr +:+ "
**Author:** " +:+ pr_user_login pr +:+ "

**Description:**
" +:+ or_no_description (pr_body pr) +:+ "

**Changes:**
- " +:+ pretty (pr_changed_files pr) +:+ " files changed
- " +:+ pretty (pr_additions pr) +:+ " additions
- " +:+ pretty (pr_deletions pr) +:+ " deletions

**PR URL:** " +:+ pr_html_url pr +:+ "
    ");
     task_listId := CODE_REVIEWS;
     task_tags := ["github"; "pull-request"; repo_name repository] |}.

Definition opened_or_reopened (action : option string) : bool :=
  bool_decide (action = Some "opened") || bool_decide (action = Some "reopened").

Definition handlePullRequestEvent (data : github_body) : M unit :=
  if negb (opened_or_reopened (body_action data)) then ret tt
  else
    pr <- deref (body_pull_request data) "base" ;;
    if negb (bool_decide (pr_base_ref pr = "main")) &&
       negb (bool_decide (pr_base_ref pr = "master")) then
      console_log [Text ("Skipping PR to " +:+ pr_base_ref pr +:+
                         " branch (only tracking main/master)")]
    else
      repository <- deref (body_repository data) "full_name" ;;
      console_log [Text ("New PR #" +:+ pretty (pr_number pr) +:+ " in " +:+
                         repo_full_name repository +:+ ": " +:+ pr_title pr)] ;;;
      createClickUpTask (pull_request_task repository pr) ;;; ret tt.

Definition is_stack_label (l : label) : bool :=
  bool_decide (Utf16.toLowerCase (label_name l) = Utf16.of_string "stack") ||
  bool_decide (Utf16.toLowerCase (label_name l) = Utf16.of_string "immortal-stack").

Definition issue_task (repository : repository) (issue : issue) : task_record :=
  {| task_name := "GitHub Issue #" +:+ pretty (issue_number issue) +:+ ": " +:+
                  issue_title issue;
     task_description := Utf16.of_string ("
# GitHub Issue

**Repository:** " +:+ repo_full_name repository +:+ "
**Issue Number:** #" +:+ pretty (issue_number issue) +:+ "
**Title:** " +:+ issue_title issue +:+ "
**Author:** " +:+ issue_user_login issue +:+ "

**Description:**
" +:+ or_no_description (issue_body issue) +:+ "

**Labels:** ") ++ Utf16.join (Utf16.of_string ", ") (map label_name (issue_labels issue)) ++
                         Utf16.of_string ("

**Issue URL:** " +:+ issue_html_url issue +:+ "
    ");
     task_listId := DEV_BACKLOG;
     task_tags := ["github"; "issue"; repo_name repository] |}.

Definition handleIssuesEvent (data : github_body) : M unit :=
  if negb (opened_or_reopened (body_action data)) then ret tt
  else
    issue <- deref (body_issue data) "labels" ;;
    let hasStackLabel := existsb is_stack_label (issue_labels issue) in
    if negb hasStackLabel then
      console_log [Text ("Skipping issue #" +:+ pretty (issue_number issue) +:+
                         " - no stack label")]
    else
      repository <- deref (body_repository data) "full_name" ;;
      console_log [Text ("New issue #" +:+ pretty (issue_number issue) +:+ " in " +:+
                         repo_full_name repository +:+ ": " +:+ issue_title issue)] ;;;
      createClickUpTask (issue_task repository issue) ;;; ret tt.

Definition logEventToMongoDB (data : github_body) (eventType : option string) : M unit :=
  console_log [Text ("[MongoDB] Logging GitHub " +:+ show eventType +:+
                     " event to database")].

(** The [switch] of [processGithubEvent]. *)
Definition dispatch (data : github_body) (eventType : option string) : M unit :=
  if bool_decide (eventType = Some "push") then handlePushEvent data
  else if bool_decide (eventType = Some "pull_request") then handlePullRequestEvent data
  else if bool_decide (eventType = Some "issues") then handleIssuesEvent data
  else console_log [Text ("Event type " +:+ show eventType +:+
                          " not configured for processing")].

(** The body of the [try] block of [processGithubEvent]. *)
Definition attempt (data : github_body) (eventType : option string) : M result :=
  dispatch data eventType ;;;
  (* Log the event to MongoDB (placeholder for future implementation) *)
  logEventToMongoDB data eventType ;;;
  ret {| result_status := "success";
         result_message := "GitHub " +:+ show eventType +:+
                           " event processed successfully" |}.

Definition processGithubEvent (data : github_body) (eventType : option string) : M result :=
  console_log [Text ("Processing GitHub " +:+ show eventType +:+ " event:");
               Text (JSON_stringify 2 data)] ;;;
  try_catch
    (attempt data eventType)
    (fun error =>
       console_error [Text "Error processing GitHub event:"; ErrorObject error] ;;;
       ret {| result_status := "error";
              result_message := "Error processing GitHub event: " +:+
                                error_message error |}).

End Handler.
End GithubHandler.

(** ** HTTP requests and responses *)

Record request (Body : Type) := Request {
  headers : gmap string string;
  body : Body
}.
Arguments Request {Body} headers body.
Arguments headers {Body} r.
Arguments body {Body} r.

(** [res.status(code).json({ status, message, ... })]; a field whose value
    is [undefined] is left out of the JSON body. *)
Record response := Response {
  status_code : Z;
  json_status : string;
  json_message : string;
  json_fields : list (string * string)
}.

Definition field (k : string) (v : option string) : list (string * string) :=
  match v with
  | Some s => [(k, s)]
  | None => []
  end.

(** A request as the server receives it, before any middleware has run:
    the headers and the bytes of the body.  [req.body] does not exist
    yet. *)
Record raw_request := RawRequest {
  raw_headers : gmap string string;
  raw_body : list Z
}.

(** ** middleware/auth.js *)

Module Auth.

Inductive verdict :=
  | Rejected (r : response)     (* the middleware answered itself *)
  | Next.                       (* [next()] *)

Definition unauthorized : response :=
  Response 401 "error" "Authentication token missing" [].
Definition forbidden : response :=
  Response 403 "error" "Invalid authentication token" [].

Definition authenticateWebhook {Body} (env : gmap string string) (req : request Body)
  : verdict :=
  let authToken := headers req !! "x-webhook-token" in
  (* Check if token exists *)
  if negb (truthy authToken) then Rejected unauthorized
  (* Verify the token *)
  else if negb (bool_decide (authToken = env !! "MAKE_WEBHOOK_SECRET")) then
    Rejected forbidden
  (* Authentication successful *)
  else Next.

End Auth.

(** ** routes/github.js *)

Module GithubRoute.
Section Route.

Variable env : gmap string string.
Variable axios : list effect -> axios_request -> outcome clickup_task.
Variable JSON_stringify : nat -> github_body -> string.
(** [new Date().toISOString()] *)
Variable now : string.

Definition GITHUB_WEBHOOK_SECRET : option string := env !! "GITHUB_WEBHOOK_SECRET".

(** ['sha256=' + hmac.update(payload).digest('hex')] *)
Definition expected_digest (req : request github_body) : string :=
  let payload := JSON_stringify 0 (body req) in
  "sha256=" +:+ Crypto.createHmac_sha256_hex (show GITHUB_WEBHOOK_SECRET) payload.

Definition verifyGithubSignature (req : request github_body) : M bool :=
  if negb (truthy GITHUB_WEBHOOK_SECRET) then
    console_warn
      [Text "GitHub webhook secret not configured - skipping signature verification"] ;;;
    ret true
  else
    let signature := headers req !! "x-hub-signature-256" in
    if negb (truthy signature) then
      console_error [Text "No X-Hub-Signature-256 header in request"] ;;;
      ret false
    else
      match Crypto.timingSafeEqual (Buffer.from (show signature))
                                   (Buffer.from (expected_digest req)) with
      | Crypto.Compared b => ret b
      | Crypto.LengthMismatch => throw length_error
      end.

(** [router.post('/webhook', ...)] *)
Definition webhook (req : request github_body) : M response :=
  let eventType := headers req !! "x-github-event" in
  let deliveryId := headers req !! "x-github-delivery" in
  console_log [Text ("Received GitHub " +:+ show eventType +:+ " event (" +:+
                     show deliveryId +:+ ")")] ;;;
  valid <- verifyGithubSignature req ;;
  if negb valid then
    console_error [Text "Invalid GitHub webhook signature"] ;;;
    ret (Response 401 "error" "Invalid signature" [])
  else
    try_catch
      (result <- GithubHandler.processGithubEvent env axios JSON_stringify
                   (body req) eventType ;;
       ret (Response 200 (result_status result) (result_message result)
              (field "eventType" eventType ++ field "deliveryId" deliveryId ++
               [("timestamp", now)])))
      (fun error =>
         console_error [Text "Error processing GitHub webhook:"; ErrorObject error] ;;;
         ret (Response 200 "error" "Webhook received but processing failed"
                [("error", error_message error)])).

End Route.
End GithubRoute.

(** ** routes/webhooks.js *)

Module WebhooksRoute.
Section Route.

Variable env : gmap string string.
(** The parsed body of a MAKE.com call and its serialisation. *)
Variable Payload : Type.
Variable JSON_stringify : nat -> Payload -> string.
Variable now : string.
(** The four scenario handlers live in Handlers/memoryHandler.js and its
    siblings; the route only calls them, without awaiting anything.  Each
    is a parameter here: an arbitrary computation that returns or throws. *)
Variable processMemory processLog processSync processUpdate : Payload -> M unit.

(** The [switch] on the scenario identifier. *)
Definition scenario (scenarioId : string) (payload : Payload) : M unit :=
  if bool_decide (scenarioId = "memory-harvest") then processMemory payload
  else if bool_decide (scenarioId = "discord-log") then processLog payload
  else if bool_decide (scenarioId = "clickup-sync") then processSync payload
  else if bool_decide (scenarioId = "notion-update") then processUpdate payload
  else console_warn [Text ("Unknown scenario ID: " +:+ scenarioId)].

(** The handler of [router.post('/make/:scenarioId', authenticateWebhook, ...)]. *)
Definition make (scenarioId : string) (req : request Payload) : M response :=
  let payload := body req in
  console_log [Text ("Received webhook from MAKE.com scenario: " +:+ scenarioId)] ;;;
  console_log [Text "Payload:"; Text (JSON_stringify 2 payload)] ;;;
  try_catch
    (scenario scenarioId payload ;;;
     (* Always respond with success to acknowledge receipt *)
     ret (Response 200 "success" "Webhook received successfully"
            [("scenarioId", scenarioId); ("timestamp", now)]))
    (fun error =>
       console_error [Text "Error processing webhook:"; ErrorObject error] ;;;
       (* Still return 200 to MAKE.com to prevent retries *)
       ret (Response 200 "error" "Webhook received but processing failed" [])).

(** The route with its middleware in front. *)
Definition make_route (scenarioId : string) (req : request Payload) : M response :=
  match Auth.authenticateWebhook env req with
  | Auth.Rejected r => ret r
  | Auth.Next => make scenarioId req
  end.

End Route.
End WebhooksRoute.

(** ** server.js *)

Module Server.
Section App.

Variable env : gmap string string.
Variable axios : list effect -> axios_request -> outcome clickup_task.
Variable JSON_stringify : nat -> github_body -> string.
Variable now : string.
Variable Payload : Type.
Variable JSON_stringify_payload : nat -> Payload -> string.
Variable processMemory processLog processSync processUpdate : Payload -> M unit.

(** [app.use((err, req, res, next) => ...)] *)
Definition errorMiddleware (err : js_error) : M response :=
  console_error [Text "Server error:"; ErrorObject err] ;;;
  ret (Response 500 "error" "An internal server error occurred" []).

(** What Express does with the rejection of an [async] route handler:
    Express 5 hands it to the error middleware, Express 4 leaves the
    request without an answer.  The version is fixed by package.json, not
    by the code modelled here, so it is a parameter. *)
Variable forwards_rejections : bool.

(** The route mounted at [/api/github/webhook], for a request whose body
    the parser has set; [None] when no response is sent. *)
Definition post_github_webhook (req : request github_body) : M (option response) :=
  try_catch
    (r <- GithubRoute.webhook env axios JSON_stringify now req ;; ret (Some r))
    (fun err =>
       if forwards_rejections then r <- errorMiddleware err ;; ret (Some r)
       else ret None).

(** The route mounted at [/api/webhooks/make/:scenarioId], for a request
    whose body the parser has set: the handler is synchronous, and what it
    throws goes to the error middleware. *)
Definition post_make_webhook (scenarioId : string) (req : request Payload) : M response :=
  try_catch
    (WebhooksRoute.make_route env Payload JSON_stringify_payload now
       processMemory processLog processSync processUpdate scenarioId req)
    errorMiddleware.

(** [app.use(bodyParser.json())] runs before both routers.  It either sets
    [req.body] and calls [next()], or calls [next(err)]: a body that is
    not valid JSON, or one above the size limit.  Which bodies it accepts
    is the library's business, so the parser is a parameter, read once as
    the payload of a GitHub event and once as the payload of a MAKE.com
    call.  [helmet()] and [cors()] in front of it only add response
    headers, which the answers modelled here do not record. *)
Variable bodyParser_json : raw_request -> outcome github_body.
Variable bodyParser_json_payload : raw_request -> outcome Payload.

(** [POST /api/github/webhook] from the first middleware on: an error of
    the parser skips the router and goes to the error middleware. *)
Definition github_endpoint (raw : raw_request) : M (option response) :=
  match bodyParser_json raw with
  | Ret b => post_github_webhook (Request (raw_headers raw) b)
  | Throw err => r <- errorMiddleware err ;; ret (Some r)
  end.


End App.
End Server.

(** ** JSON text of a payload

    [JSON.stringify] is a parameter of the routes above.  This instance
    prints the modelled fields of a GitHub payload, and is what the
    concrete runs below use. *)

Module Json.

#[local] Set Warnings "-register-all".

Inductive json :=
  | JNull
  | JNum (n : N)
  | JStr (s : string)
  | JText (t : list N)
  | JArr (items : list json)
  | JObj (fields : list (string * json)).

Definition dquote : string := String "034"%char "".
Definition backslash : string := String "092"%char "".
Definition newline : string := String "010"%char "".

Definition escape_char (c : ascii) : string :=
  let n := JsString.code c in
  if n =? 34 then backslash +:+ dquote
  else if n =? 92 then backslash +:+ backslash
  else if n =? 8 then backslash +:+ "b"
  else if n =? 9 then backslash +:+ "t"
  else if n =? 10 then backslash +:+ "n"
  else if n =? 12 then backslash +:+ "f"
  else if n =? 13 then backslash +:+ "r"
  else if n <? 32 then
    backslash +:+ "u00" +:+
    String (Sha256.hexdigit (Z.shiftr n 4)) (String (Sha256.hexdigit n) "")
  else String c "".

Fixpoint escape (s : string) : string :=
  match s with
  | EmptyString => ""
  | String c s' => escape_char c +:+ escape s'
  end.

Definition quote (s : string) : string := dquote +:+ escape s +:+ dquote.

(** A code unit above U+00FF cannot be held by the string model and is
    written as its escape, which reads back as the same text. *)
Definition escape_unit (u : N) : string :=
  if (u <? 256)%N then escape_char (ascii_of_N u)
  else
    let n := Z.of_N u in
    backslash +:+ "u" +:+
    String (Sha256.hexdigit (Z.shiftr n 12)) (String (Sha256.hexdigit (Z.shiftr n 8))
    (String (Sha256.hexdigit (Z.shiftr n 4)) (String (Sha256.hexdigit n) ""))).

Fixpoint escape_units (t : list N) : string :=
  match t with
  | [] => ""
  | u :: t' => escape_unit u +:+ escape_units t'
  end.

Fixpoint spaces (n : nat) : string :=
  match n with
  | O => ""
  | S n' => String " "%char (spaces n')
  end.

(** Line break and indentation at nesting depth [depth]; nothing when
    [space] is 0. *)
Definition break (space depth : nat) : string :=
  match space with
  | O => ""
  | _ => newline +:+ spaces (space * depth)
  end.

Definition colon (space : nat) : string :=
  match space with O => ":" | _ => ": " end.

Fixpoint print (space depth : nat) (j : json) : string :=
  match j with
  | JNull => "null"
  | JNum n => pretty n
  | JStr s => quote s
  | JText t => dquote +:+ escape_units t +:+ dquote
  | JArr [] => "[]"
  | JArr items =>
      "[" +:+ break space (S depth) +:+
      JsString.join ("," +:+ break space (S depth))
                    (map (print space (S depth)) items) +:+
      break space depth +:+ "]"
  | JObj [] => "{}"
  | JObj fields =>
      "{" +:+ break space (S depth) +:+
      JsString.join ("," +:+ break space (S depth))
        (map (fun kv => quote (fst kv) +:+ colon space +:+ print space (S depth) (snd kv))
             fields) +:+
      break space depth +:+ "}"
  end.

Definition opt {A} (k : string) (f : A -> json) (v : option A) : list (string * json) :=
  match v with
  | Some a => [(k, f a)]
  | None => []
  end.

Definition nullable (v : option string) : json :=
  match v with
  | Some s => JStr s
  | None => JNull
  end.

Definition of_repository (r : repository) : json :=
  JObj [("name", JStr (repo_name r)); ("full_name", JStr (repo_full_name r))].

Definition of_commit (c : commit) : json :=
  JObj [("id", JStr (commit_id c));
        ("message", JStr (commit_message c));
        ("author", JObj [("name", JStr (commit_author_name c))]);
        ("added", JArr (map JStr (commit_added c)));
        ("modified", JArr (map JStr (commit_modified c)));
        ("removed", JArr (map JStr (commit_removed c)));
        ("url", JStr (commit_url c))].

Definition of_pull_request (p : pull_request) : json :=
  JObj [("number", JNum (pr_number p));
        ("title", JStr (pr_title p));
        ("user", JObj [("login", JStr (pr_user_login p))]);
        ("body", nullable (pr_body p));
        ("base", JObj [("ref", JStr (pr_base_ref p))]);
        ("changed_files", JNum (pr_changed_files p));
        ("additions", JNum (pr_additions p));
        ("deletions", JNum (pr_deletions p));
        ("html_url", JStr (pr_html_url p))].

Definition of_issue (i : issue) : json :=
  JObj [("number", JNum (issue_number i));
        ("title", JStr (issue_title i));
        ("user", JObj [("login", JStr (issue_user_login i))]);
        ("body", nullable (issue_body i));
        ("labels", JArr (map (fun l => JObj [("name", JText (label_name l))])
                             (issue_labels i)));
        ("html_url", JStr (issue_html_url i))].

Definition of_body (b : github_body) : json :=
  JObj (opt "ref" JStr (body_ref b) ++
        opt "action" JStr (body_action b) ++
        opt "repository" of_repository (body_repository b) ++
        opt "commits" (fun cs => JArr (map of_commit cs)) (body_commits b) ++
        opt "pull_request" of_pull_request (body_pull_request b) ++
        opt "issue" of_issue (body_issue b)).

Definition stringify (space : nat) (b : github_body) : string :=
  print space 0 (of_body b).

End Json.

(** ** Concrete configurations, worlds and requests *)

Module Sample.

Definition env : gmap string string :=
  <["CLICKUP_API_TOKEN" := "pk_81_TOKEN"]>
  (<["CLICKUP_TODO_LIST_ID" := "9001"]>
  (<["CLICKUP_CODE_REVIEWS_LIST_ID" := "9002"]>
  (<["CLICKUP_DEV_BACKLOG_LIST_ID" := "9003"]>
  (<["GITHUB_WEBHOOK_SECRET" := "It's a Secret to Everybody"]>
  (<["MAKE_WEBHOOK_SECRET" := "make-token"]> ∅))))).

(** No ClickUp token and no signing secret. *)
Definition env_bare : gmap string string :=
  <["CLICKUP_TODO_LIST_ID" := "9001"]> ∅.

(** Every task creation succeeds; the identifier counts the calls. *)
Definition axios_ok (history : list effect) (r : axios_request) : outcome clickup_task :=
  Ret (ClickUpTask ("task-" +:+ pretty (length (posts history)))).

(** The API answers every call with an error and a structured body. *)
Definition axios_down (history : list effect) (r : axios_request) : outcome clickup_task :=
  Throw (JsError "AxiosError" "Request failed with status code 401"
                 (Some "{ err: 'Token invalid', ECODE: 'OAUTH_025' }")).

Definition now : string := "2024-05-01T12:00:00.000Z".

Definition repo : repository := Repository "webhooks" "CelestialSeed/webhooks".

Definition commit_todo : commit :=
  Commit "a1b2c3" "todo: fix bug" "Ada" ["src/new.js"] ["server.js"; "README.md"] []
         "https://github.com/CelestialSeed/webhooks/commit/a1b2c3".

Definition commit_plain : commit :=
  Commit "d4e5f6" "Update docs" "Ada" [] ["README.md"] []
         "https://github.com/CelestialSeed/webhooks/commit/d4e5f6".

Definition commit_shout : commit :=
  Commit "0a0b0c" ("Refactor router" +:+ Json.newline +:+ "ToDo later: tests") "Lin"
         [] ["Routes/webhooks.js"] ["old.js"]
         "https://github.com/CelestialSeed/webhooks/commit/0a0b0c".

Definition push_body : github_body :=
  GithubBody (Some "refs/heads/main") (Some repo)
             (Some [commit_todo; commit_plain; commit_shout]) None None None.

Definition pr (base : string) : pull_request :=
  PullRequest 7 "Add health route" "lin" None base 3 40 2
              "https://github.com/CelestialSeed/webhooks/pull/7".

Definition pr_body_of (action base : string) : github_body :=
  GithubBody None (Some repo) None (Some action) (Some (pr base)) None.

Definition issue_with (labels : list string) : issue :=
  Issue 12 "Crash on empty payload" "ada" (Some "Steps to reproduce ...")
        (map (fun name => Label (Utf16.of_string name)) labels)
        "https://github.com/CelestialSeed/webhooks/issues/12".

(** The label "stac" followed by the Kelvin sign U+212A. *)
Definition kelvin_label : label := Label (Utf16.of_string "stac" ++ [8490%N]).

Definition kelvin_issue : issue :=
  Issue 13 "Sensor drift" "lin" None [kelvin_label]
        "https://github.com/CelestialSeed/webhooks/issues/13".

Definition kelvin_issue_body : github_body :=
  GithubBody None (Some repo) None (Some "opened") None (Some kelvin_issue).

Definition issue_body_of (action : string) (labels : list string) : github_body :=
  GithubBody None (Some repo) None (Some action) None (Some (issue_with labels)).

Definition github_request (hs : list (string * string)) (b : github_body)
  : request github_body :=
  Request (list_to_map hs) b.

(** The signature GitHub would send for [b] under the sample secret. *)
Definition signature_of (b : github_body) : string :=
  GithubRoute.expected_digest env Json.stringify (github_request [] b).

Definition signed_request (sig : string) : request github_body :=
  github_request [("x-github-event", "push");
                  ("x-github-delivery", "72d3162e-cc78-11e3-81ab-4c9367dc0958");
                  ("x-hub-signature-256", sig)] push_body.

Definition good_signature : string := signature_of push_body.

(** The last hexadecimal digit replaced by the byte 0xE9. *)
Definition mutated_signature : string :=
  JsString.set_char 70 "233"%char good_signature.

(** The last hexadecimal digit replaced by another digit. *)
Definition flipped_signature : string :=
  JsString.set_char 70 "0"%char good_signature.

(** The last byte dropped. *)
Definition truncated_signature : string := JsString.take 70 good_signature.

(** A push of one commit that mentions nothing to do. *)
Definition quiet_push_body : github_body :=
  GithubBody (Some "refs/heads/docs") (Some repo) (Some [commit_plain]) None None None.

(** A tag push: the ref does not name a branch. *)
Definition tag_push_body : github_body :=
  GithubBody (Some "refs/tags/v1.0") (Some repo) (Some []) None None None.

(** An issues event that lacks its [issue]. *)
Definition hollow_issue_body : github_body :=
  GithubBody None (Some repo) None (Some "opened") None None.

(** A payload without [ref] and [commits], as a ping delivers it. *)
Definition ping_body : github_body :=
  GithubBody None (Some repo) None None None None.

(** The signed push delivery, relabelled as an issues event. *)
Definition relabelled_request : request github_body :=
  github_request [("x-github-event", "issues");
                  ("x-github-delivery", "00000000-0000-0000-0000-000000000000");
                  ("x-hub-signature-256", good_signature)] push_body.

(** A scenario handler that does nothing, and one that throws. *)
Definition handler_ok (payload : string) : M unit := ret tt.
Definition handler_fails (payload : string) : M unit :=
  throw (JsError "Error" "memory store unavailable" None).

Definition make_request (hs : list (string * string)) (payload : string)
  : request string :=
  Request (list_to_map hs) payload.

Definition stringify_text (space : nat) (payload : string) : string := Json.quote payload.

(** A push whose ref holds the branch prefix in the middle. *)
Definition nested_ref_push_body : github_body :=
  GithubBody (Some "x/refs/heads/y") (Some repo) (Some []) None None None.

(** What the body parser passes on for a body that is not JSON. *)
Definition syntax_error : js_error :=
  JsError "SyntaxError" "Unexpected token o in JSON at position 1" None.

(** Body parsers for the runs below: each knows one body, the JSON text
    of [push_body] and the empty object, and refuses every other one. *)
Definition bodyParser_push (raw : raw_request) : outcome github_body :=
  if Buffer.equal (raw_body raw) (Buffer.from (Json.stringify 0 push_body))
  then Ret push_body
  else Throw syntax_error.


Definition raw_push (hs : list (string * string)) : raw_request :=
  RawRequest (list_to_map hs) (Buffer.from (Json.stringify 0 push_body)).



End Sample.

(** ** Vocabulary of the specification *)

(** [word] occurs in [s] at index [i]. *)
Definition occurs_at (word s : string) (i : nat) : Prop :=
  exists before after, s = before +:+ word +:+ after /\ String.length before = i.

(** [r] is [s] with its first occurrence of [word] removed, or [s] itself
    when [word] does not occur in it. *)
Definition without_first (word s r : string) : Prop :=
  (exists before after,
     s = before +:+ word +:+ after /\ r = before +:+ after /\
     forall i, occurs_at word s i -> (String.length before <= i)%nat) \/
  ((forall i, ~ occurs_at word s i) /\ r = s).

(** The message contains the substring "todo", letter case disregarded. *)
Definition contains_todo (m : string) : Prop :=
  exists pre post a b c d,
    m = pre +:+ String a (String b (String c (String d post))) /\
    (a = "t" \/ a = "T")%char /\ (b = "o" \/ b = "O")%char /\
    (c = "d" \/ c = "D")%char /\ (d = "o" \/ d = "O")%char.

(** The code unit [u] is the character [x] of a lower-case ASCII word,
    in either case: [x] itself, its capital when [x] is a letter, or the
    Kelvin sign U+212A, a capital of k. *)
Definition same_letter (u x : N) : Prop :=
  (u = x \/ (97 <= x <= 122 /\ u + 32 = x) \/ (x = 107 /\ u = 8490))%N.

(** The name is the lower-case ASCII word [word], letter case disregarded:
    same length, and unit by unit the same letter. *)
Definition equal_ignoring_case (name : list N) (word : string) : Prop :=
  Forall2 same_letter name (Utf16.of_string word).

(** The label is [stack] or [immortal-stack], letter case disregarded. *)
Definition stack_label (l : label) : Prop :=
  equal_ignoring_case (label_name l) "stack" \/
  equal_ignoring_case (label_name l) "immortal-stack".

(** ** Vocabulary for the effects of a computation *)

(** From every starting point, [m] leaves the earlier [axios.post] calls in
    place and every call it adds satisfies [P]. *)
Definition sends {A} (P : axios_request -> Prop) (m : M A) : Prop :=
  forall t, exists new, posts (snd (m t)) = posts t ++ new /\ Forall P new.

(** A task creation as the GitHub handlers issue it: the configured token
    as [Authorization] header, one of the three configured lists in the
    URL, and [github] as first tag. *)
Definition clickup_call (env : gmap string string) (r : axios_request) : Prop :=
  truthy (env !! "CLICKUP_API_TOKEN") = true /\
  post_headers r = [("Authorization", show (env !! "CLICKUP_API_TOKEN"));
                    ("Content-Type", "application/json")] /\
  (exists listId,
     listId <> "" /\
     (env !! "CLICKUP_TODO_LIST_ID" = Some listId \/
      env !! "CLICKUP_CODE_REVIEWS_LIST_ID" = Some listId \/
      env !! "CLICKUP_DEV_BACKLOG_LIST_ID" = Some listId) /\
     post_url r = "https://api.clickup.com/api/v2/list/" +:+ listId +:+ "/task") /\
  (exists rest, post_tags r = "github" :: rest).

(** A task creation addressed to the list configured under [key] and
    carrying exactly the tags [tags]. *)
Definition call_to_list (env : gmap string string) (key : string) (tags : list string)
    (r : axios_request) : Prop :=
  exists listId,
    env !! key = Some listId /\ listId <> "" /\
    post_url r = "https://api.clickup.com/api/v2/list/" +:+ listId +:+ "/task" /\
    post_tags r = tags.

(** * Properties *)

(** ** Known answers of the crypto model *)

Example sha256_constants :
  nth 0 Sha256.K 0 = 0x428a2f98 /\ nth 63 Sha256.K 0 = 0xc67178f2 /\
  Sha256.ha Sha256.H0 = 0x6a09e667 /\ Sha256.hh Sha256.H0 = 0x5be0cd19.
Proof. vm_compute. repeat split; reflexivity. Qed.

Example sha256_abc :
  Sha256.state_hex (Sha256.hash_state (Buffer.from "abc"))
  = "ba7816bf8f01cfea414140de5dae2223b00361a396177a9cb410ff61f20015ad".
Proof. vm_compute. reflexivity. Qed.

Example sha256_two_blocks :
  Sha256.state_hex (Sha256.hash_state
    (Buffer.from "abcdbcdecdefdefgefghfghighijhijkijkljklmklmnlmnomnopnopq"))
  = "248d6a61d20638b8e5c026930c3e6039a33ce45964ff2167f6ecedd419db06c1".
Proof. vm_compute. reflexivity. Qed.

(** RFC 4231, test case 2. *)
Example hmac_rfc4231_case2 :
  Crypto.createHmac_sha256_hex "Jefe" "what do ya want for nothing?"
  = "5bdcc146bf60754e6a042426089575c75a003f089d2739839dec58b964ec3843".
Proof. vm_compute. reflexivity. Qed.

(** RFC 4231, test case 6: a key longer than one block is hashed first. *)
Example hmac_rfc4231_case6 :
  Sha256.state_hex
    (Crypto.hmac_state (repeat 170 131)
       (Buffer.from "Test Using Larger Than Block-Size Key - Hash Key First"))
  = "60e431591ee0b67f0d8a26aacbf5b77f8e0bc6213728c5140546040f0ee37f54".
Proof. vm_compute. reflexivity. Qed.

(** The example of GitHub's webhook documentation. *)
Example hmac_github_docs :
  Crypto.createHmac_sha256_hex "It's a Secret to Everybody" "Hello, World!"
  = "757107ea0eb2509fc211221cce984b8a37570b6d7586c22c46f4379c8b043e17".
Proof. vm_compute. reflexivity. Qed.

(** ** Strings and buffers *)

Lemma string_length_app (a b : string) :
  String.length (a +:+ b) = (String.length a + String.length b)%nat.
Proof. induction a as [|c a IH]; simpl; [reflexivity | now rewrite IH]. Qed.

Lemma utf8_char_ascii c : Buffer.is_ascii c -> Buffer.utf8_char c = [JsString.code c].
Proof.
  unfold Buffer.is_ascii, Buffer.utf8_char. intros H.
  destruct (Z.ltb_spec (JsString.code c) 128); [reflexivity | lia].
Qed.

Lemma byteLength_ascii (s : string) :
  Forall Buffer.is_ascii (JsString.chars s) -> Buffer.byteLength s = String.length s.
Proof.
  unfold Buffer.byteLength.
  induction s as [|c s IH]; simpl; intros H; [reflexivity|].
  inversion H as [|? ? Hc Hs]; subst.
  rewrite utf8_char_ascii by assumption. simpl. f_equal. now apply IH.
Qed.

Lemma chars_app (a b : string) :
  JsString.chars (a +:+ b) = JsString.chars a ++ JsString.chars b.
Proof. induction a as [|c a IH]; simpl; [reflexivity | now rewrite IH]. Qed.

Lemma buffer_from_app (a b : string) :
  Buffer.from (a +:+ b) = Buffer.from a ++ Buffer.from b.
Proof.
  induction a as [|c a IH]; simpl; [reflexivity|].
  now rewrite IH, app_assoc.
Qed.

Lemma buffer_equal_iff (a b : list Z) : Buffer.equal a b = true <-> a = b.
Proof.
  revert b. induction a as [|x a IH]; intros [|y b]; simpl; try (split; congruence).
  rewrite andb_true_iff, Z.eqb_eq, IH. split.
  - intros [-> ->]. reflexivity.
  - intros [= -> ->]. split; reflexivity.
Qed.

Lemma decode_utf8_char (c : ascii) (rest : list Z) :
  Buffer.decode_char (Buffer.utf8_char c ++ rest) = Some (c, rest).
Proof.
  destruct c as [[] [] [] [] [] [] [] []]; reflexivity.
Qed.

Lemma buffer_from_inj (a b : string) : Buffer.from a = Buffer.from b -> a = b.
Proof.
  revert b. induction a as [|x a IH]; intros [|y b]; simpl; intros H.
  - reflexivity.
  - apply (f_equal Buffer.decode_char) in H. rewrite decode_utf8_char in H. discriminate.
  - apply (f_equal Buffer.decode_char) in H. rewrite decode_utf8_char in H. discriminate.
  - apply (f_equal Buffer.decode_char) in H. rewrite !decode_utf8_char in H.
    injection H as -> H. f_equal. now apply IH.
Qed.

(** ** The hexadecimal digest *)

Lemma hexdigit_ascii (n : Z) : Buffer.is_ascii (Sha256.hexdigit n).
Proof.
  unfold Sha256.hexdigit.
  assert (H : Forall Buffer.is_ascii Sha256.hex_alphabet).
  { unfold Sha256.hex_alphabet, Buffer.is_ascii. repeat constructor. }
  generalize (Z.to_nat (Z.land n 15)). intros k.
  destruct (nth_in_or_default k Sha256.hex_alphabet "0"%char) as [Hin | ->].
  - rewrite Forall_forall in H. apply H. now apply list_elem_of_In.
  - reflexivity.
Qed.

Lemma hex32_length (w : Z) : String.length (Sha256.hex32 w) = 8%nat.
Proof. reflexivity. Qed.

Lemma hex32_ascii (w : Z) : Forall Buffer.is_ascii (JsString.chars (Sha256.hex32 w)).
Proof. unfold Sha256.hex32. simpl. repeat constructor; apply hexdigit_ascii. Qed.

Lemma state_hex_length (s : Sha256.state) : String.length (Sha256.state_hex s) = 64%nat.
Proof. unfold Sha256.state_hex. rewrite !string_length_app, !hex32_length. reflexivity. Qed.

Lemma state_hex_ascii (s : Sha256.state) : Forall Buffer.is_ascii (JsString.chars (Sha256.state_hex s)).
Proof.
  unfold Sha256.state_hex. rewrite !chars_app.
  repeat (apply Forall_app; split); apply hex32_ascii.
Qed.

Lemma hmac_hex_ascii (key payload : string) :
  Forall Buffer.is_ascii
         (JsString.chars ("sha256=" +:+ Crypto.createHmac_sha256_hex key payload)).
Proof.
  rewrite chars_app. apply Forall_app. split.
  - unfold Buffer.is_ascii. simpl. repeat constructor.
  - apply state_hex_ascii.
Qed.

Lemma hmac_hex_length (key payload : string) :
  String.length ("sha256=" +:+ Crypto.createHmac_sha256_hex key payload) = 71%nat.
Proof.
  rewrite string_length_app. unfold Crypto.createHmac_sha256_hex.
  rewrite state_hex_length. reflexivity.
Qed.

Lemma hmac_hex_byteLength (key payload : string) :
  Buffer.byteLength ("sha256=" +:+ Crypto.createHmac_sha256_hex key payload) = 71%nat.
Proof.
  rewrite byteLength_ascii; [apply hmac_hex_length | apply hmac_hex_ascii].
Qed.

(** Replacing one character of an all-ASCII string by a code unit above
    127 makes its UTF-8 encoding one byte longer. *)
Lemma byteLength_set_char_high (s : string) (i : nat) (c : ascii) :
  Forall Buffer.is_ascii (JsString.chars s) ->
  (i < String.length s)%nat ->
  ~ Buffer.is_ascii c ->
  Buffer.byteLength (JsString.set_char i c s) = S (Buffer.byteLength s).
Proof.
  unfold Buffer.byteLength. revert i.
  induction s as [|a s IH]; intros i Hs Hi Hc; simpl in Hi; [lia|].
  inversion Hs as [|? ? Ha Hs']; subst.
  destruct i as [|i]; simpl.
  - rewrite (utf8_char_ascii a Ha). unfold Buffer.utf8_char, Buffer.is_ascii in *.
    destruct (Z.ltb_spec (JsString.code c) 128); [lia | reflexivity].
  - rewrite !length_app. f_equal. rewrite IH; [lia | assumption | lia | assumption].
Qed.

(** ** Running the monad *)

Ltac unfold_js :=
  unfold bind, ret, throw, try_catch, console_log, console_warn, console_error,
         emit, deref in *.

Lemma truthy_Some (s : string) : truthy (Some s) = true <-> s <> "".
Proof. destruct s; simpl; split; congruence. Qed.

Lemma truthy_show (v : option string) : truthy v = true -> v = Some (show v).
Proof. destruct v as [[|]|]; simpl; congruence. Qed.

(** ** The signature verifier (routes/github.js) *)

Section Verifier.

Context (env : gmap string string) (JSON_stringify : nat -> github_body -> string).

Lemma expected_digest_byteLength (req : request github_body) :
  Buffer.byteLength (GithubRoute.expected_digest env JSON_stringify req) = 71%nat.
Proof. apply hmac_hex_byteLength. Qed.

(** With a secret configured and a non-empty signature header, the
    verifier compares when the byte lengths agree and throws otherwise. *)
Lemma verify_with_signature (req : request github_body) (sig : string) (t : list effect) :
  truthy (env !! "GITHUB_WEBHOOK_SECRET") = true ->
  headers req !! "x-hub-signature-256" = Some sig ->
  sig <> "" ->
  GithubRoute.verifyGithubSignature env JSON_stringify req t =
    if Nat.eqb (Buffer.byteLength sig) 71
    then (Ret (bool_decide (sig = GithubRoute.expected_digest env JSON_stringify req)), t)
    else (Throw length_error, t).
Proof.
  intros Hsecret Hsig Hne.
  pose proof (expected_digest_byteLength req) as Hlen.
  unfold GithubRoute.verifyGithubSignature, GithubRoute.GITHUB_WEBHOOK_SECRET.
  rewrite Hsecret, Hsig. apply truthy_Some in Hne. rewrite Hne.
  unfold Crypto.timingSafeEqual, show.
  set (d := GithubRoute.expected_digest env JSON_stringify req) in *.
  unfold Buffer.byteLength in *. cbn [negb default from_option id]. rewrite Hlen.
  destruct (Nat.eqb (length (Buffer.from sig)) 71); [|reflexivity].
  unfold ret. do 2 f_equal.
  destruct (Buffer.equal (Buffer.from sig) (Buffer.from d)) eqn:E.
  - apply buffer_equal_iff, buffer_from_inj in E. symmetry. now apply bool_decide_eq_true.
  - symmetry. apply bool_decide_eq_false. intros ->.
    assert (Buffer.equal (Buffer.from d) (Buffer.from d) = true)
      by now apply buffer_equal_iff.
    congruence.
Qed.

(** A correctly computed signature is accepted. *)
Lemma verify_accepts_digest (req : request github_body) (t : list effect) :
  truthy (env !! "GITHUB_WEBHOOK_SECRET") = true ->
  headers req !! "x-hub-signature-256"
    = Some (GithubRoute.expected_digest env JSON_stringify req) ->
  GithubRoute.verifyGithubSignature env JSON_stringify req t = (Ret true, t).
Proof.
  intros Hsecret Hsig.
  pose proof (expected_digest_byteLength req) as Hlen.
  rewrite (verify_with_signature req _ t Hsecret Hsig).
  - rewrite Hlen, Nat.eqb_refl. now rewrite bool_decide_eq_true_2.
  - intros E. rewrite E in Hlen. discriminate.
Qed.

(** Any other signature of the same encoded length is rejected. *)
Lemma verify_rejects_same_length (req : request github_body) (sig : string) (t : list effect) :
  truthy (env !! "GITHUB_WEBHOOK_SECRET") = true ->
  headers req !! "x-hub-signature-256" = Some sig ->
  Buffer.byteLength sig = 71%nat ->
  sig <> GithubRoute.expected_digest env JSON_stringify req ->
  GithubRoute.verifyGithubSignature env JSON_stringify req t = (Ret false, t).
Proof.
  intros Hsecret Hsig Hlen Hne.
  rewrite (verify_with_signature req sig t Hsecret Hsig).
  - rewrite Hlen, Nat.eqb_refl. now rewrite bool_decide_eq_false_2.
  - intros ->. discriminate.
Qed.

End Verifier.

Section VerifierClaims.

Context (env : gmap string string) (JSON_stringify : nat -> github_body -> string).

(** With a secret configured, a non-empty signature whose encoded length
    is not that of the digest makes [timingSafeEqual] throw. *)
Lemma verify_throws_on_length (req : request github_body) (sig : string) (t : list effect) :
  truthy (env !! "GITHUB_WEBHOOK_SECRET") = true ->
  headers req !! "x-hub-signature-256" = Some sig ->
  sig <> "" ->
  Buffer.byteLength sig <> 71%nat ->
  GithubRoute.verifyGithubSignature env JSON_stringify req t = (Throw length_error, t).
Proof.
  intros Hsecret Hsig Hne Hlen.
  rewrite (verify_with_signature env JSON_stringify req sig t Hsecret Hsig Hne).
  apply Nat.eqb_neq in Hlen. now rewrite Hlen.
Qed.

(** C2. Without a configured signing secret (unset or empty) the verifier
    returns true for every request, whatever its body and whatever the
    signature header holds; it only logs a warning. *)
Theorem verify_skipped_without_secret (req : request github_body) (t : list effect) :
  truthy (env !! "GITHUB_WEBHOOK_SECRET") = false ->
  GithubRoute.verifyGithubSignature env JSON_stringify req t
  = (Ret true,
     t ++ [Console WARN
             [Text "GitHub webhook secret not configured - skipping signature verification"]]).
Proof.
  intros Hsecret.
  unfold GithubRoute.verifyGithubSignature, GithubRoute.GITHUB_WEBHOOK_SECRET.
  rewrite Hsecret. reflexivity.
Qed.

(** C8. With a secret configured and no signature header in the request,
    the verifier returns false: it logs an error and does not throw. *)
Theorem verify_false_without_header (req : request github_body) (t : list effect) :
  truthy (env !! "GITHUB_WEBHOOK_SECRET") = true ->
  headers req !! "x-hub-signature-256" = None ->
  GithubRoute.verifyGithubSignature env JSON_stringify req t
  = (Ret false, t ++ [Console ERROR [Text "No X-Hub-Signature-256 header in request"]]).
Proof.
  intros Hsecret Hsig.
  unfold GithubRoute.verifyGithubSignature, GithubRoute.GITHUB_WEBHOOK_SECRET.
  rewrite Hsecret, Hsig. reflexivity.
Qed.

(** Any one character of the correct signature replaced by a code unit
    above 127: the verifier throws. *)
Lemma verify_throws_on_high_byte (req : request github_body) (i : nat) (c : ascii)
    (t : list effect) :
  truthy (env !! "GITHUB_WEBHOOK_SECRET") = true ->
  (i < 71)%nat ->
  ~ Buffer.is_ascii c ->
  headers req !! "x-hub-signature-256"
    = Some (JsString.set_char i c (GithubRoute.expected_digest env JSON_stringify req)) ->
  GithubRoute.verifyGithubSignature env JSON_stringify req t = (Throw length_error, t).
Proof.
  intros Hsecret Hi Hc Hsig.
  assert (Hlen : Buffer.byteLength
                   (JsString.set_char i c (GithubRoute.expected_digest env JSON_stringify req))
                 = 72%nat).
  { rewrite byteLength_set_char_high;
      [ now rewrite expected_digest_byteLength
      | apply hmac_hex_ascii
      | unfold GithubRoute.expected_digest; now rewrite hmac_hex_length
      | assumption ]. }
  apply (verify_throws_on_length req _ t Hsecret Hsig).
  - intros E. rewrite E in Hlen. discriminate.
  - now rewrite Hlen.
Qed.

End VerifierClaims.

Lemma verify_skipped_without_secret_witness :
  truthy (Sample.env_bare !! "GITHUB_WEBHOOK_SECRET") = false /\
  GithubRoute.verifyGithubSignature Sample.env_bare Json.stringify
    (Sample.signed_request "sha256=forged") []
  = (Ret true,
     [Console WARN
        [Text "GitHub webhook secret not configured - skipping signature verification"]]).
Proof.
  split; [reflexivity|].
  apply (verify_skipped_without_secret Sample.env_bare Json.stringify
           (Sample.signed_request "sha256=forged") []).
  reflexivity.
Defined.

Lemma verify_false_without_header_witness :
  truthy (Sample.env !! "GITHUB_WEBHOOK_SECRET") = true /\
  headers (Sample.github_request [("x-github-event", "push")] Sample.push_body)
    !! "x-hub-signature-256" = None /\
  GithubRoute.verifyGithubSignature Sample.env Json.stringify
    (Sample.github_request [("x-github-event", "push")] Sample.push_body) []
  = (Ret false, [Console ERROR [Text "No X-Hub-Signature-256 header in request"]]).
Proof.
  split; [reflexivity|]. split; [reflexivity|].
  apply (verify_false_without_header Sample.env Json.stringify
           (Sample.github_request [("x-github-event", "push")] Sample.push_body) []);
    reflexivity.
Defined.

(** C1. The verifier at a correctly signed request and at two single-byte
    mutations of its signature.  The correct signature is accepted and a
    changed digit is rejected, but a signature whose last byte is replaced
    by 0xE9, or dropped, makes the verifier throw where false is due. *)
Theorem verify_mutated_signature_throws :
  GithubRoute.verifyGithubSignature Sample.env Json.stringify
    (Sample.signed_request Sample.good_signature) [] = (Ret true, []) /\
  GithubRoute.verifyGithubSignature Sample.env Json.stringify
    (Sample.signed_request Sample.flipped_signature) [] = (Ret false, []) /\
  String.length Sample.mutated_signature = String.length Sample.good_signature /\
  GithubRoute.verifyGithubSignature Sample.env Json.stringify
    (Sample.signed_request Sample.mutated_signature) [] = (Throw length_error, []) /\
  GithubRoute.verifyGithubSignature Sample.env Json.stringify
    (Sample.signed_request Sample.truncated_signature) [] = (Throw length_error, []).
Proof. vm_compute. repeat split; reflexivity. Qed.

(** ** The task client (handlers/githubHandler.js) *)

Lemma posts_app (a b : list effect) : posts (a ++ b) = posts a ++ posts b.
Proof. unfold posts. apply omap_app. Qed.

Lemma posts_console (t : list effect) (lvl : console_level) (args : list log_arg) :
  posts (t ++ [Console lvl args]) = posts t.
Proof. rewrite posts_app. simpl. apply app_nil_r. Qed.

Section TaskClient.

Context (env : gmap string string)
        (axios : list effect -> axios_request -> outcome clickup_task).

Lemma createClickUpTask_no_token (task : task_record) (t : list effect) :
  truthy (env !! "CLICKUP_API_TOKEN") = false ->
  GithubHandler.createClickUpTask env axios task t
  = (Ret None,
     t ++ [Console LOG [Text "ClickUp integration not configured (missing API token)"]]).
Proof.
  intros H. unfold GithubHandler.createClickUpTask, GithubHandler.CLICKUP_API_TOKEN.
  rewrite H. reflexivity.
Qed.

Lemma createClickUpTask_no_list (task : task_record) (t : list effect) :
  truthy (env !! "CLICKUP_API_TOKEN") = true ->
  truthy (task_listId task) = false ->
  GithubHandler.createClickUpTask env axios task t
  = (Ret None, t ++ [Console LOG [Text "ClickUp list ID not configured"]]).
Proof.
  intros H1 H2. unfold GithubHandler.createClickUpTask, GithubHandler.CLICKUP_API_TOKEN.
  rewrite H1, H2. reflexivity.
Qed.

Lemma createClickUpTask_created (task : task_record) (t : list effect) (created : clickup_task) :
  truthy (env !! "CLICKUP_API_TOKEN") = true ->
  truthy (task_listId task) = true ->
  axios t (GithubHandler.request_of env task) = Ret created ->
  GithubHandler.createClickUpTask env axios task t
  = (Ret (Some created),
     t ++ [HttpPost (GithubHandler.request_of env task)] ++
       [Console LOG [Text ("Created ClickUp task: " +:+ created_id created +:+
                           " - " +:+ task_name task)]]).
Proof.
  intros H1 H2 Hok.
  unfold GithubHandler.createClickUpTask, GithubHandler.CLICKUP_API_TOKEN.
  rewrite H1, H2. cbn [negb]. unfold_js. unfold GithubHandler.axios_post.
  rewrite Hok. now rewrite <- app_assoc.
Qed.

Lemma createClickUpTask_failed (task : task_record) (t : list effect) (e : js_error) :
  truthy (env !! "CLICKUP_API_TOKEN") = true ->
  truthy (task_listId task) = true ->
  axios t (GithubHandler.request_of env task) = Throw e ->
  GithubHandler.createClickUpTask env axios task t
  = (Throw e,
     t ++ [HttpPost (GithubHandler.request_of env task)] ++
       [Console ERROR [Text "Error creating ClickUp task:"; Text (error_message e)]] ++
       match error_response e with
       | Some data => [Console ERROR [Text "ClickUp API response:"; Text data]]
       | None => []
       end).
Proof.
  intros H1 H2 Hko.
  unfold GithubHandler.createClickUpTask, GithubHandler.CLICKUP_API_TOKEN.
  rewrite H1, H2. cbn [negb]. unfold_js. unfold GithubHandler.axios_post.
  rewrite Hko.
  destruct (error_response e); rewrite <- ?app_assoc; simpl; reflexivity.
Qed.

(** C9. Without an API token, or with a record whose list identifier is
    unset, [createClickUpTask] returns normally and sends nothing.  With
    both configured, a failing API call is logged (message, and the
    response body when there is one) and the error is thrown on to the
    caller. *)
Theorem createClickUpTask_contract (task : task_record) (t : list effect) :
  (truthy (env !! "CLICKUP_API_TOKEN") = false \/ truthy (task_listId task) = false ->
   exists t',
     GithubHandler.createClickUpTask env axios task t = (Ret None, t') /\
     posts t' = posts t) /\
  (truthy (env !! "CLICKUP_API_TOKEN") = true ->
   truthy (task_listId task) = true ->
   forall e,
     axios t (GithubHandler.request_of env task) = Throw e ->
     GithubHandler.createClickUpTask env axios task t
     = (Throw e,
        t ++ [HttpPost (GithubHandler.request_of env task)] ++
          [Console ERROR [Text "Error creating ClickUp task:"; Text (error_message e)]] ++
          match error_response e with
          | Some data => [Console ERROR [Text "ClickUp API response:"; Text data]]
          | None => []
          end)).
Proof.
  split.
  - intros H.
    destruct (truthy (env !! "CLICKUP_API_TOKEN")) eqn:Htok.
    + destruct H as [H|H]; [discriminate|].
      eexists. split; [now apply createClickUpTask_no_list|]. apply posts_console.
    + eexists. split; [now apply createClickUpTask_no_token|]. apply posts_console.
  - intros H1 H2 e He. now apply createClickUpTask_failed.
Qed.

End TaskClient.

Lemma createClickUpTask_contract_witness :
  (exists t',
     GithubHandler.createClickUpTask Sample.env_bare Sample.axios_ok
       (GithubHandler.push_task Sample.env_bare Sample.repo "main" Sample.commit_todo) []
     = (Ret None, t') /\ posts t' = posts []) /\
  fst (GithubHandler.createClickUpTask Sample.env Sample.axios_down
         (GithubHandler.push_task Sample.env Sample.repo "main" Sample.commit_todo) [])
  = Throw (JsError "AxiosError" "Request failed with status code 401"
                   (Some "{ err: 'Token invalid', ECODE: 'OAUTH_025' }")).
Proof.
  split.
  - apply (createClickUpTask_contract Sample.env_bare Sample.axios_ok
             (GithubHandler.push_task Sample.env_bare Sample.repo "main" Sample.commit_todo) []).
    left. reflexivity.
  - destruct (createClickUpTask_contract Sample.env Sample.axios_down
                (GithubHandler.push_task Sample.env Sample.repo "main" Sample.commit_todo) [])
      as [_ H].
    now rewrite (H eq_refl eq_refl _ eq_refl).
Defined.

(** The failing branch of the task client on a concrete run: the API
    refuses the call, both error lines are logged and the error comes back. *)
Example createClickUpTask_api_down :
  GithubHandler.createClickUpTask Sample.env Sample.axios_down
    (GithubHandler.push_task Sample.env Sample.repo "main" Sample.commit_todo) []
  = (Throw (JsError "AxiosError" "Request failed with status code 401"
                    (Some "{ err: 'Token invalid', ECODE: 'OAUTH_025' }")),
     [HttpPost (GithubHandler.request_of Sample.env
                  (GithubHandler.push_task Sample.env Sample.repo "main" Sample.commit_todo));
      Console ERROR [Text "Error creating ClickUp task:";
                     Text "Request failed with status code 401"];
      Console ERROR [Text "ClickUp API response:";
                     Text "{ err: 'Token invalid', ECODE: 'OAUTH_025' }"]]).
Proof. vm_compute. reflexivity. Qed.

(** ** Case-insensitive matching *)

Ltac by_ascii_cases a :=
  destruct a as [[] [] [] [] [] [] [] []]; vm_compute;
  (split;
   [ intros H; first [discriminate H | auto]
   | intros [H|H]; first [discriminate H | reflexivity] ]).

Lemma lower_char_t (a : ascii) :
  JsString.lower_char a = "t"%char <-> (a = "t" \/ a = "T")%char.
Proof. by_ascii_cases a. Qed.

Lemma lower_char_o (a : ascii) :
  JsString.lower_char a = "o"%char <-> (a = "o" \/ a = "O")%char.
Proof. by_ascii_cases a. Qed.

Lemma lower_char_d (a : ascii) :
  JsString.lower_char a = "d"%char <-> (a = "d" \/ a = "D")%char.
Proof. by_ascii_cases a. Qed.

Lemma startsWith_todo (s : string) :
  JsString.startsWith "todo" (JsString.toLowerCase s) = true <->
  exists a b c d post,
    s = String a (String b (String c (String d post))) /\
    (a = "t" \/ a = "T")%char /\ (b = "o" \/ b = "O")%char /\
    (c = "d" \/ c = "D")%char /\ (d = "o" \/ d = "O")%char.
Proof.
  split.
  - destruct s as [|a [|b [|c [|d post]]]]; cbn [JsString.toLowerCase JsString.startsWith];
      repeat match goal with
             | |- context [ascii_dec ?x ?y] => destruct (ascii_dec x y)
             end; try discriminate.
    intros _. exists a, b, c, d, post. split; [reflexivity|].
    repeat split;
      first [now apply lower_char_t | now apply lower_char_o | now apply lower_char_d].
  - intros (a & b & c & d & post & -> & Ha & Hb & Hc & Hd).
    apply lower_char_t in Ha. apply lower_char_o in Hb.
    apply lower_char_d in Hc. apply lower_char_o in Hd.
    cbn [JsString.toLowerCase JsString.startsWith]. rewrite Ha, Hb, Hc, Hd.
    reflexivity.
Qed.

Lemma includes_todo (m : string) :
  JsString.includes "todo" (JsString.toLowerCase m) = true <-> contains_todo m.
Proof.
  induction m as [|x m IH].
  - split; [discriminate|].
    intros (pre & post & a & b & c & d & E & _). destruct pre; discriminate.
  - change (JsString.includes "todo" (JsString.toLowerCase (String x m)))
      with (JsString.startsWith "todo" (JsString.toLowerCase (String x m))
            || JsString.includes "todo" (JsString.toLowerCase m)).
    rewrite orb_true_iff, startsWith_todo, IH. split.
    + intros [(a & b & c & d & post & E & H) | (pre & post & a & b & c & d & E & H)].
      * exists "", post, a, b, c, d. split; [exact E | exact H].
      * exists (String x pre), post, a, b, c, d. split; [now rewrite E | exact H].
    + intros (pre & post & a & b & c & d & E & H). destruct pre as [|y pre].
      * left. exists a, b, c, d, post. split; [exact E | exact H].
      * right. injection E as -> E. exists pre, post, a, b, c, d.
        split; [exact E | exact H].
Qed.

Lemma mentions_todo_iff (c : commit) :
  GithubHandler.mentions_todo c = true <-> contains_todo (commit_message c).
Proof. apply includes_todo. Qed.

(** ** The push handler *)

Section PushHandler.

Context (env : gmap string string)
        (axios : list effect -> axios_request -> outcome clickup_task).

Lemma push_loop (repository : repository) (branch : string) (commits : list commit) :
  truthy (env !! "CLICKUP_API_TOKEN") = true ->
  truthy (env !! "CLICKUP_TODO_LIST_ID") = true ->
  (forall h r, exists created, axios h r = Ret created) ->
  forall t, exists t',
    for_of commits (GithubHandler.push_step env axios repository branch) t = (Ret tt, t') /\
    posts t' = posts t ++
               map (fun c => GithubHandler.request_of env
                               (GithubHandler.push_task env repository branch c))
                   (List.filter GithubHandler.mentions_todo commits).
Proof.
  intros Htoken Hlist Hok.
  induction commits as [|c cs IH]; intros t.
  - exists t. split; [reflexivity | now rewrite app_nil_r].
  - cbn [for_of List.filter]. unfold bind at 1. unfold GithubHandler.push_step at 1.
    destruct (GithubHandler.mentions_todo c) eqn:Hc.
    + destruct (Hok t (GithubHandler.request_of env
                         (GithubHandler.push_task env repository branch c)))
        as [created Hcreated].
      unfold bind at 1.
      rewrite (createClickUpTask_created env axios
                 (GithubHandler.push_task env repository branch c) t created
                 Htoken Hlist Hcreated).
      unfold ret at 1.
      match goal with |- context [for_of cs _ ?t1] => destruct (IH t1) as (t' & Hrun & Hposts) end.
      exists t'. split; [exact Hrun|].
      rewrite Hposts, app_assoc, posts_console, posts_app. cbn [map].
      now rewrite <- app_assoc.
    + unfold ret at 1. destruct (IH t) as (t' & Hrun & Hposts).
      exists t'. split; [exact Hrun | exact Hposts].
Qed.

(** C3. For a push payload, with the task client configured and the API
    accepting every call, the handler sends exactly one task-creation
    call per commit whose message contains "todo" in any letter case, in
    commit order and nothing else: K calls for K such commits, each
    tagged [github; todo; commit] and addressed to the TODO list. *)
Theorem push_creates_one_task_per_todo_commit
    (data : github_body) (ref : string) (repository : repository)
    (commits : list commit) (t : list effect) :
  truthy (env !! "CLICKUP_API_TOKEN") = true ->
  truthy (env !! "CLICKUP_TODO_LIST_ID") = true ->
  (forall h r, exists created, axios h r = Ret created) ->
  body_ref data = Some ref ->
  body_repository data = Some repository ->
  body_commits data = Some commits ->
  let branch := JsString.replace "refs/heads/" "" ref in
  let matching := List.filter GithubHandler.mentions_todo commits in
  let call := fun c => GithubHandler.request_of env
                         (GithubHandler.push_task env repository branch c) in
  (forall c, GithubHandler.mentions_todo c = true <-> contains_todo (commit_message c)) /\
  (forall c, post_tags (call c) = ["github"; "todo"; "commit"] /\
             post_url (call c) = "https://api.clickup.com/api/v2/list/" +:+
                                 show (env !! "CLICKUP_TODO_LIST_ID") +:+ "/task") /\
  exists t',
    GithubHandler.handlePushEvent env axios data t = (Ret tt, t') /\
    posts t' = posts t ++ map call matching /\
    length (posts t') = (length (posts t) + length matching)%nat.
Proof.
  intros Htoken Hlist Hok Href Hrepo Hcommits branch matching call.
  split; [exact mentions_todo_iff|]. split; [intros c; split; reflexivity|].
  unfold GithubHandler.handlePushEvent. rewrite Href, Hrepo, Hcommits.
  unfold deref. unfold bind at 1. unfold ret at 1.
  unfold bind at 1. unfold ret at 1. unfold bind at 1. unfold ret at 1.
  unfold bind at 1. unfold console_log, emit.
  match goal with
  | |- context [for_of commits ?f ?t1] =>
      destruct (push_loop repository branch commits Htoken Hlist Hok t1)
        as (t' & Hrun & Hposts)
  end.
  exists t'. split; [exact Hrun|].
  rewrite posts_console in Hposts. split; [exact Hposts|].
  now rewrite Hposts, length_app, length_map.
Qed.

End PushHandler.

Lemma push_creates_one_task_per_todo_commit_witness :
  truthy (Sample.env !! "CLICKUP_API_TOKEN") = true /\
  truthy (Sample.env !! "CLICKUP_TODO_LIST_ID") = true /\
  (forall h r, exists created, Sample.axios_ok h r = Ret created) /\
  exists t',
    GithubHandler.handlePushEvent Sample.env Sample.axios_ok Sample.push_body [] = (Ret tt, t') /\
    length (posts t') = 2%nat.
Proof.
  assert (Hok : forall h r, exists created, Sample.axios_ok h r = Ret created)
    by (intros h r; eexists; reflexivity).
  split; [reflexivity|]. split; [reflexivity|]. split; [exact Hok|].
  destruct (push_creates_one_task_per_todo_commit Sample.env Sample.axios_ok
              Sample.push_body "refs/heads/main" Sample.repo
              [Sample.commit_todo; Sample.commit_plain; Sample.commit_shout] []
              eq_refl eq_refl Hok eq_refl eq_refl eq_refl)
    as (_ & _ & t' & Hrun & _ & Hlen).
  exists t'. split; [exact Hrun | exact Hlen].
Defined.

(** The end-to-end scenario of the specification: one commit "todo: fix
    bug" pushed to refs/heads/main gives one task in the TODO list. *)
Example push_single_todo_commit :
  posts (snd (GithubHandler.handlePushEvent Sample.env Sample.axios_ok
                (GithubBody (Some "refs/heads/main") (Some Sample.repo)
                            (Some [Sample.commit_todo]) None None None) []))
  = [GithubHandler.request_of Sample.env
       (GithubHandler.push_task Sample.env Sample.repo "main" Sample.commit_todo)] /\
  post_url (GithubHandler.request_of Sample.env
              (GithubHandler.push_task Sample.env Sample.repo "main" Sample.commit_todo))
  = "https://api.clickup.com/api/v2/list/9001/task" /\
  post_tags (GithubHandler.request_of Sample.env
               (GithubHandler.push_task Sample.env Sample.repo "main" Sample.commit_todo))
  = ["github"; "todo"; "commit"].
Proof. vm_compute. repeat split; reflexivity. Qed.

(** ** The pull-request and issues handlers *)

Lemma opened_or_reopened_iff (action : option string) :
  GithubHandler.opened_or_reopened action = true <->
  action = Some "opened" \/ action = Some "reopened".
Proof.
  unfold GithubHandler.opened_or_reopened.
  rewrite orb_true_iff, !bool_decide_eq_true. reflexivity.
Qed.

Lemma opened_or_reopened_false (action : option string) :
  action <> Some "opened" -> action <> Some "reopened" ->
  GithubHandler.opened_or_reopened action = false.
Proof.
  intros H1 H2. destruct (GithubHandler.opened_or_reopened action) eqn:E; [|reflexivity].
  apply opened_or_reopened_iff in E. tauto.
Qed.

(** A character of the words the labels are compared with: a lower-case
    ASCII letter or the hyphen. *)
Lemma lower_unit_letter (u x : N) :
  (97 <= x <= 122 \/ x = 45)%N ->
  Utf16.lower_unit u = [x] <-> same_letter u x.
Proof.
  intros Hx. unfold Utf16.lower_unit, same_letter.
  repeat match goal with
         | |- context [if ?b then _ else _] => destruct b eqn:?
         end;
    rewrite ?orb_true_iff, ?orb_false_iff, ?andb_true_iff, ?andb_false_iff,
      ?negb_true_iff, ?negb_false_iff, ?N.leb_le, ?N.leb_gt, ?N.eqb_eq, ?N.eqb_neq in *;
    (split; [intros [= E] | intros E; f_equal]); lia.
Qed.

Lemma lower_unit_head (u x : N) (rest : list N) :
  (97 <= x <= 122 \/ x = 45)%N ->
  Forall (fun y => 97 <= y <= 122 \/ y = 45)%N rest ->
  forall tail, Utf16.lower_unit u ++ tail = x :: rest ->
  Utf16.lower_unit u = [x] /\ tail = rest.
Proof.
  intros Hx Hrest tail. unfold Utf16.lower_unit.
  repeat match goal with
         | |- context [if ?b then _ else _] => destruct b
         end; cbn [app]; intros [= <- <-]; try (split; reflexivity).
  inversion Hrest as [|? ? Hy _]; subst. lia.
Qed.

Lemma toLowerCase_word (name word : list N) :
  Forall (fun y => 97 <= y <= 122 \/ y = 45)%N word ->
  Utf16.toLowerCase name = word <-> Forall2 same_letter name word.
Proof.
  revert word. induction name as [|u name IH]; intros word Hword.
  - cbn. split; [intros <-; constructor | intros H; inversion H; reflexivity].
  - change (Utf16.toLowerCase (u :: name))
      with (Utf16.lower_unit u ++ Utf16.toLowerCase name).
    destruct word as [|x word].
    + split; [|intros H; inversion H].
      unfold Utf16.lower_unit.
      repeat match goal with
             | |- context [if ?b then _ else _] => destruct b
             end; discriminate.
    + inversion Hword as [|? ? Hx Hrest]; subst. split.
      * intros H. apply lower_unit_head in H; [|assumption..].
        destruct H as [Hu Htail]. constructor.
        -- now apply lower_unit_letter.
        -- now apply IH.
      * intros H. inversion H as [|? ? ? ? Hu Htail]; subst.
        apply lower_unit_letter in Hu; [|assumption]. rewrite Hu.
        cbn [app]. f_equal. now apply IH.
Qed.

Lemma is_stack_label_iff (l : label) :
  GithubHandler.is_stack_label l = true <-> stack_label l.
Proof.
  unfold GithubHandler.is_stack_label, stack_label, equal_ignoring_case.
  change (Utf16.of_string "stack") with [115; 116; 97; 99; 107]%N.
  change (Utf16.of_string "immortal-stack")
    with [105; 109; 109; 111; 114; 116; 97; 108; 45; 115; 116; 97; 99; 107]%N.
  rewrite orb_true_iff, !bool_decide_eq_true.
  assert (H1 : Forall (fun y => 97 <= y <= 122 \/ y = 45)%N [115; 116; 97; 99; 107]%N)
    by (repeat constructor; lia).
  assert (H2 : Forall (fun y => 97 <= y <= 122 \/ y = 45)%N
                 [105; 109; 109; 111; 114; 116; 97; 108; 45; 115; 116; 97; 99; 107]%N)
    by (repeat constructor; lia).
  rewrite (toLowerCase_word _ _ H1), (toLowerCase_word _ _ H2). reflexivity.
Qed.

Lemma hasStackLabel_iff (labels : list label) :
  existsb GithubHandler.is_stack_label labels = true <->
  exists l, In l labels /\ stack_label l.
Proof.
  rewrite existsb_exists. split; intros (l & Hin & Hl); exists l; split; try assumption;
    now apply is_stack_label_iff.
Qed.

Section ReviewHandlers.

Context (env : gmap string string)
        (axios : list effect -> axios_request -> outcome clickup_task).

(** C4. A pull_request event whose action is neither opened nor reopened
    does nothing.  An opened or reopened pull request whose base branch is
    neither main nor master (develop, say) sends no task: it is only
    logged.  One whose base is main or master sends exactly one task,
    tagged [github; pull-request; <repository name>] and addressed to the
    code-reviews list, when the client is configured and the API accepts
    the call. *)
Theorem pull_request_tasks (data : github_body) (t : list effect) :
  (body_action data <> Some "opened" -> body_action data <> Some "reopened" ->
   GithubHandler.handlePullRequestEvent env axios data t = (Ret tt, t)) /\
  (forall pr,
     body_action data = Some "opened" \/ body_action data = Some "reopened" ->
     body_pull_request data = Some pr ->
     pr_base_ref pr <> "main" -> pr_base_ref pr <> "master" ->
     exists t',
       GithubHandler.handlePullRequestEvent env axios data t = (Ret tt, t') /\
       posts t' = posts t) /\
  (forall pr repository,
     body_action data = Some "opened" \/ body_action data = Some "reopened" ->
     body_pull_request data = Some pr ->
     body_repository data = Some repository ->
     pr_base_ref pr = "main" \/ pr_base_ref pr = "master" ->
     truthy (env !! "CLICKUP_API_TOKEN") = true ->
     truthy (env !! "CLICKUP_CODE_REVIEWS_LIST_ID") = true ->
     (forall h r, exists created, axios h r = Ret created) ->
     let call := GithubHandler.request_of env
                   (GithubHandler.pull_request_task env repository pr) in
     post_tags call = ["github"; "pull-request"; repo_name repository] /\
     post_url call = "https://api.clickup.com/api/v2/list/" +:+
                     show (env !! "CLICKUP_CODE_REVIEWS_LIST_ID") +:+ "/task" /\
     exists t',
       GithubHandler.handlePullRequestEvent env axios data t = (Ret tt, t') /\
       posts t' = posts t ++ [call]).
Proof.
  split; [|split].
  - intros H1 H2. unfold GithubHandler.handlePullRequestEvent.
    now rewrite (opened_or_reopened_false _ H1 H2).
  - intros pr Hact Hpr Hmain Hmaster.
    apply opened_or_reopened_iff in Hact.
    unfold GithubHandler.handlePullRequestEvent. rewrite Hact, Hpr.
    cbn [negb deref]. unfold bind at 1. unfold ret at 1.
    rewrite (bool_decide_eq_false_2 _ Hmain), (bool_decide_eq_false_2 _ Hmaster).
    cbn [negb andb]. eexists. split; [reflexivity | apply posts_console].
  - intros pr repository Hact Hpr Hrepo Hbase Htoken Hlist Hok call.
    split; [reflexivity|]. split; [reflexivity|].
    apply opened_or_reopened_iff in Hact.
    unfold GithubHandler.handlePullRequestEvent. rewrite Hact, Hpr, Hrepo.
    cbn [negb deref]. unfold bind at 1. unfold ret at 1.
    assert (Hb : negb (bool_decide (pr_base_ref pr = "main")) &&
                 negb (bool_decide (pr_base_ref pr = "master")) = false).
    { destruct Hbase as [-> | ->]; reflexivity. }
    rewrite Hb. unfold bind at 1. unfold ret at 1.
    unfold bind at 1. unfold console_log, emit.
    match goal with
    | |- context [bind (GithubHandler.createClickUpTask env axios ?task) _ ?t1] =>
        destruct (Hok t1 (GithubHandler.request_of env task)) as [created Hcreated];
        unfold bind at 1;
        rewrite (createClickUpTask_created env axios task t1 created Htoken Hlist Hcreated)
    end.
    eexists. split; [reflexivity|].
    rewrite app_assoc, posts_console, posts_app, posts_console. reflexivity.
Qed.

(** C5. An opened or reopened issue none of whose labels is [stack] or
    [immortal-stack], letter case disregarded, sends no task; one with
    such a label sends exactly one, tagged [github; issue; <repository
    name>] and addressed to the dev-backlog list, when the client is
    configured and the API accepts the call.  A label matches a word when
    it has the word's length and, position by position, the word's
    character, its ASCII capital, or the Kelvin sign U+212A for k. *)
Theorem issue_tasks (data : github_body) (issue : issue) (t : list effect) :
  body_action data = Some "opened" \/ body_action data = Some "reopened" ->
  body_issue data = Some issue ->
  ((forall l, In l (issue_labels issue) -> ~ stack_label l) ->
   exists t',
     GithubHandler.handleIssuesEvent env axios data t = (Ret tt, t') /\
     posts t' = posts t) /\
  (forall repository,
     (exists l, In l (issue_labels issue) /\ stack_label l) ->
     body_repository data = Some repository ->
     truthy (env !! "CLICKUP_API_TOKEN") = true ->
     truthy (env !! "CLICKUP_DEV_BACKLOG_LIST_ID") = true ->
     (forall h r, exists created, axios h r = Ret created) ->
     let call := GithubHandler.request_of env
                   (GithubHandler.issue_task env repository issue) in
     post_tags call = ["github"; "issue"; repo_name repository] /\
     post_url call = "https://api.clickup.com/api/v2/list/" +:+
                     show (env !! "CLICKUP_DEV_BACKLOG_LIST_ID") +:+ "/task" /\
     exists t',
       GithubHandler.handleIssuesEvent env axios data t = (Ret tt, t') /\
       posts t' = posts t ++ [call]).
Proof.
  intros Hact Hissue. apply opened_or_reopened_iff in Hact.
  split.
  - intros Hnone.
    assert (Hl : existsb GithubHandler.is_stack_label (issue_labels issue) = false).
    { destruct (existsb _ _) eqn:E; [|reflexivity].
      apply hasStackLabel_iff in E. destruct E as (l & Hin & Hl).
      exfalso. exact (Hnone l Hin Hl). }
    unfold GithubHandler.handleIssuesEvent. rewrite Hact, Hissue.
    cbn [negb deref]. unfold bind at 1. unfold ret at 1. rewrite Hl. cbn [negb].
    eexists. split; [reflexivity | apply posts_console].
  - intros repository Hsome Hrepo Htoken Hlist Hok call.
    split; [reflexivity|]. split; [reflexivity|].
    apply hasStackLabel_iff in Hsome.
    unfold GithubHandler.handleIssuesEvent. rewrite Hact, Hissue, Hrepo.
    cbn [negb deref]. unfold bind at 1. unfold ret at 1. rewrite Hsome. cbn [negb].
    unfold bind at 1. unfold ret at 1.
    unfold bind at 1. unfold console_log, emit.
    match goal with
    | |- context [bind (GithubHandler.createClickUpTask env axios ?task) _ ?t1] =>
        destruct (Hok t1 (GithubHandler.request_of env task)) as [created Hcreated];
        unfold bind at 1;
        rewrite (createClickUpTask_created env axios task t1 created Htoken Hlist Hcreated)
    end.
    eexists. split; [reflexivity|].
    rewrite app_assoc, posts_console, posts_app, posts_console. reflexivity.
Qed.

End ReviewHandlers.

Lemma pull_request_tasks_witness :
  GithubHandler.handlePullRequestEvent Sample.env Sample.axios_ok
    (Sample.pr_body_of "closed" "main") [] = (Ret tt, []) /\
  (exists t',
     GithubHandler.handlePullRequestEvent Sample.env Sample.axios_ok
       (Sample.pr_body_of "opened" "develop") [] = (Ret tt, t') /\
     posts t' = posts []) /\
  (exists t',
     GithubHandler.handlePullRequestEvent Sample.env Sample.axios_ok
       (Sample.pr_body_of "reopened" "master") [] = (Ret tt, t') /\
     posts t' = posts [] ++
                [GithubHandler.request_of Sample.env
                   (GithubHandler.pull_request_task Sample.env Sample.repo
                      (Sample.pr "master"))]).
Proof.
  split; [|split].
  - apply (pull_request_tasks Sample.env Sample.axios_ok
             (Sample.pr_body_of "closed" "main") []); discriminate.
  - destruct (pull_request_tasks Sample.env Sample.axios_ok
                (Sample.pr_body_of "opened" "develop") []) as (_ & H & _).
    apply (H (Sample.pr "develop")); [left; reflexivity | reflexivity | | ]; discriminate.
  - destruct (pull_request_tasks Sample.env Sample.axios_ok
                (Sample.pr_body_of "reopened" "master") []) as (_ & _ & H).
    apply (H (Sample.pr "master") Sample.repo);
      [right; reflexivity | reflexivity | reflexivity | right; reflexivity
      | reflexivity | reflexivity | intros h r; eexists; reflexivity].
Defined.

Lemma issue_tasks_witness :
  (exists t',
     GithubHandler.handleIssuesEvent Sample.env Sample.axios_ok
       (Sample.issue_body_of "opened" ["bug"; "stacked"]) [] = (Ret tt, t') /\
     posts t' = posts []) /\
  (exists t',
     GithubHandler.handleIssuesEvent Sample.env Sample.axios_ok
       (Sample.issue_body_of "opened" ["bug"; "Immortal-Stack"]) [] = (Ret tt, t') /\
     posts t' = posts [] ++
                [GithubHandler.request_of Sample.env
                   (GithubHandler.issue_task Sample.env Sample.repo
                      (Sample.issue_with ["bug"; "Immortal-Stack"]))]) /\
  (exists t',
     GithubHandler.handleIssuesEvent Sample.env Sample.axios_ok
       Sample.kelvin_issue_body [] = (Ret tt, t') /\
     posts t' = posts [] ++
                [GithubHandler.request_of Sample.env
                   (GithubHandler.issue_task Sample.env Sample.repo Sample.kelvin_issue)]).
Proof.
  split; [|split].
  - destruct (issue_tasks Sample.env Sample.axios_ok
                (Sample.issue_body_of "opened" ["bug"; "stacked"])
                (Sample.issue_with ["bug"; "stacked"]) []
                (or_introl eq_refl) eq_refl) as (H & _).
    apply H. intros l [<- | [<- | []]] Hl;
      apply is_stack_label_iff in Hl; discriminate Hl.
  - destruct (issue_tasks Sample.env Sample.axios_ok
                (Sample.issue_body_of "opened" ["bug"; "Immortal-Stack"])
                (Sample.issue_with ["bug"; "Immortal-Stack"]) []
                (or_introl eq_refl) eq_refl) as (_ & H).
    apply (H Sample.repo);
      [ exists (Label (Utf16.of_string "Immortal-Stack"));
        split; [right; left; reflexivity | apply is_stack_label_iff; reflexivity]
      | reflexivity | reflexivity | reflexivity | intros h r; eexists; reflexivity ].
  - destruct (issue_tasks Sample.env Sample.axios_ok Sample.kelvin_issue_body
                Sample.kelvin_issue [] (or_introl eq_refl) eq_refl) as (_ & H).
    apply (H Sample.repo);
      [ exists Sample.kelvin_label;
        split; [left; reflexivity | apply is_stack_label_iff; reflexivity]
      | reflexivity | reflexivity | reflexivity | intros h r; eexists; reflexivity ].
Defined.

(** ** The token authenticator (middleware/auth.js) *)

Section TokenAuthenticator.

Context (env : gmap string string) (Payload : Type)
        (JSON_stringify : nat -> Payload -> string) (now : string)
        (processMemory processLog processSync processUpdate : Payload -> M unit).

(** C7, as the code has it.  A request without the token header, or with
    an empty one, is answered 401; a non-empty token that is not the
    configured secret is answered 403; in both cases the route handler
    and the scenario handlers do not run (nothing is logged, whatever the
    handlers are).  A non-empty token equal to the configured secret lets
    the request through to the scenario router. *)
Theorem authenticateWebhook_cases (scenarioId : string) (req : request Payload)
    (t : list effect) :
  (headers req !! "x-webhook-token" = None \/ headers req !! "x-webhook-token" = Some "" ->
   Auth.authenticateWebhook env req = Auth.Rejected Auth.unauthorized /\
   WebhooksRoute.make_route env Payload JSON_stringify now
     processMemory processLog processSync processUpdate scenarioId req t
   = (Ret Auth.unauthorized, t)) /\
  (forall token,
     headers req !! "x-webhook-token" = Some token -> token <> "" ->
     env !! "MAKE_WEBHOOK_SECRET" <> Some token ->
     Auth.authenticateWebhook env req = Auth.Rejected Auth.forbidden /\
     WebhooksRoute.make_route env Payload JSON_stringify now
       processMemory processLog processSync processUpdate scenarioId req t
     = (Ret Auth.forbidden, t)) /\
  (forall token,
     headers req !! "x-webhook-token" = Some token -> token <> "" ->
     env !! "MAKE_WEBHOOK_SECRET" = Some token ->
     Auth.authenticateWebhook env req = Auth.Next /\
     WebhooksRoute.make_route env Payload JSON_stringify now
       processMemory processLog processSync processUpdate scenarioId req t
     = WebhooksRoute.make Payload JSON_stringify now
         processMemory processLog processSync processUpdate scenarioId req t).
Proof.
  unfold WebhooksRoute.make_route, Auth.authenticateWebhook.
  split; [|split].
  - intros [H | H]; rewrite H; split; reflexivity.
  - intros token H Hne Hsecret. rewrite H.
    apply truthy_Some in Hne. rewrite Hne. cbn [negb].
    rewrite bool_decide_eq_false_2 by congruence. split; reflexivity.
  - intros token H Hne Hsecret. rewrite H.
    apply truthy_Some in Hne. rewrite Hne. cbn [negb].
    rewrite bool_decide_eq_true_2 by congruence. split; reflexivity.
Qed.

End TokenAuthenticator.

(** C7 as stated fails on an empty token header: the header is present and
    differs from the configured secret, yet the answer is 401, not 403. *)
Lemma empty_token_is_unauthorized :
  headers (Sample.make_request [("x-webhook-token", "")] "{}") !! "x-webhook-token"
    = Some "" /\
  Sample.env !! "MAKE_WEBHOOK_SECRET" = Some "make-token" /\
  Auth.authenticateWebhook Sample.env (Sample.make_request [("x-webhook-token", "")] "{}")
    = Auth.Rejected Auth.unauthorized /\
  Auth.authenticateWebhook Sample.env (Sample.make_request [("x-webhook-token", "")] "{}")
    <> Auth.Rejected Auth.forbidden.
Proof. vm_compute. repeat split; try reflexivity. discriminate. Qed.

Lemma authenticateWebhook_cases_witness :
  Auth.authenticateWebhook Sample.env (Sample.make_request [] "{}")
    = Auth.Rejected Auth.unauthorized /\
  Auth.authenticateWebhook Sample.env
    (Sample.make_request [("x-webhook-token", "guess")] "{}")
    = Auth.Rejected Auth.forbidden /\
  Auth.authenticateWebhook Sample.env
    (Sample.make_request [("x-webhook-token", "make-token")] "{}")
    = Auth.Next.
Proof.
  split; [|split].
  - apply (authenticateWebhook_cases Sample.env string Sample.stringify_text Sample.now
             Sample.handler_ok Sample.handler_ok Sample.handler_ok Sample.handler_ok
             "memory-harvest" (Sample.make_request [] "{}") []).
    left. reflexivity.
  - destruct (authenticateWebhook_cases Sample.env string Sample.stringify_text Sample.now
                Sample.handler_ok Sample.handler_ok Sample.handler_ok Sample.handler_ok
                "memory-harvest" (Sample.make_request [("x-webhook-token", "guess")] "{}") [])
      as (_ & H & _).
    apply (H "guess"); [reflexivity | discriminate | discriminate].
  - destruct (authenticateWebhook_cases Sample.env string Sample.stringify_text Sample.now
                Sample.handler_ok Sample.handler_ok Sample.handler_ok Sample.handler_ok
                "memory-harvest"
                (Sample.make_request [("x-webhook-token", "make-token")] "{}") [])
      as (_ & _ & H).
    apply (H "make-token"); [reflexivity | discriminate | reflexivity].
Defined.

(** ** The routes: errors after dispatch *)

Section GithubRouteProperties.

Context (env : gmap string string)
        (axios : list effect -> axios_request -> outcome clickup_task)
        (JSON_stringify : nat -> github_body -> string) (now : string).

(** [processGithubEvent] never throws: what its [try] block throws comes
    back as a result with status "error". *)
Lemma processGithubEvent_run (data : github_body) (eventType : option string)
    (t : list effect) :
  GithubHandler.processGithubEvent env axios JSON_stringify data eventType t =
  match GithubHandler.attempt env axios data eventType
          (t ++ [Console LOG [Text ("Processing GitHub " +:+ show eventType +:+ " event:");
                              Text (JSON_stringify 2 data)]]) with
  | (Ret r, t') => (Ret r, t')
  | (Throw e, t') =>
      (Ret {| result_status := "error";
              result_message := "Error processing GitHub event: " +:+ error_message e |},
       t' ++ [Console ERROR [Text "Error processing GitHub event:"; ErrorObject e]])
  end.
Proof.
  unfold GithubHandler.processGithubEvent. unfold bind at 1.
  unfold console_log at 1, emit. unfold try_catch.
  destruct (GithubHandler.attempt _ _ _ _ _) as [[r|e] t']; reflexivity.
Qed.

Lemma attempt_result (data : github_body) (eventType : option string)
    (t t' : list effect) (r : result) :
  GithubHandler.attempt env axios data eventType t = (Ret r, t') ->
  result_status r = "success".
Proof.
  unfold GithubHandler.attempt, bind.
  destruct (GithubHandler.dispatch _ _ _ _ _) as [[[]|e] t1]; [|discriminate].
  unfold GithubHandler.logEventToMongoDB, console_log, emit, ret.
  intros [= <- _]. reflexivity.
Qed.

End GithubRouteProperties.

Lemma processGithubEvent_returns
    (env : gmap string string)
    (axios : list effect -> axios_request -> outcome clickup_task)
    (JSON_stringify : nat -> github_body -> string)
    (data : github_body) (eventType : option string) (t : list effect) :
  exists r t',
    GithubHandler.processGithubEvent env axios JSON_stringify data eventType t = (Ret r, t').
Proof.
  rewrite processGithubEvent_run.
  destruct (GithubHandler.attempt _ _ _ _ _) as [[r|e] t2]; eexists _, _; reflexivity.
Qed.

Section Routes.

Context (env : gmap string string)
        (axios : list effect -> axios_request -> outcome clickup_task)
        (JSON_stringify : nat -> github_body -> string) (now : string)
        (forwards_rejections : bool)
        (Payload : Type) (JSON_stringify_payload : nat -> Payload -> string)
        (processMemory processLog processSync processUpdate : Payload -> M unit).

(** C6. Once a request has passed the signature check (GitHub endpoint)
    or the token check (MAKE endpoint), the endpoint answers 200, never
    5xx; and when the processing that follows throws, the body of that
    200 response carries status "error". *)
Theorem dispatch_failures_answered_200
    (req : request github_body) (mreq : request Payload) (scenarioId : string)
    (t t1 : list effect) :
  let eventType := headers req !! "x-github-event" in
  let received :=
    Console LOG [Text ("Received GitHub " +:+ show eventType +:+ " event (" +:+
                       show (headers req !! "x-github-delivery") +:+ ")")] in
  let processing :=
    Console LOG [Text ("Processing GitHub " +:+ show eventType +:+ " event:");
                 Text (JSON_stringify 2 (body req))] in
  let from_make :=
    [Console LOG [Text ("Received webhook from MAKE.com scenario: " +:+ scenarioId)];
     Console LOG [Text "Payload:"; Text (JSON_stringify_payload 2 (body mreq))]] in
  (GithubRoute.verifyGithubSignature env JSON_stringify req (t ++ [received])
     = (Ret true, t1) ->
   exists resp t',
     Server.post_github_webhook env axios JSON_stringify now forwards_rejections req t
       = (Ret (Some resp), t') /\
     status_code resp = 200 /\
     forall e t2,
       GithubHandler.attempt env axios (body req) eventType (t1 ++ [processing])
         = (Throw e, t2) ->
       json_status resp = "error" /\
       json_message resp = "Error processing GitHub event: " +:+ error_message e) /\
  (Auth.authenticateWebhook env mreq = Auth.Next ->
   exists resp t',
     Server.post_make_webhook env now Payload JSON_stringify_payload
       processMemory processLog processSync processUpdate scenarioId mreq t
       = (Ret resp, t') /\
     status_code resp = 200 /\
     forall e t2,
       WebhooksRoute.scenario Payload processMemory processLog processSync processUpdate
         scenarioId (body mreq) (t ++ from_make) = (Throw e, t2) ->
       json_status resp = "error" /\
       json_message resp = "Webhook received but processing failed").
Proof.
  intros eventType received processing from_make. split.
  - intros Hverify.
    unfold Server.post_github_webhook, GithubRoute.webhook.
    unfold try_catch at 1. unfold bind at 1. unfold bind at 1.
    unfold console_log at 1, emit.
    fold eventType. fold received. unfold bind at 1. rewrite Hverify.
    cbn [negb]. unfold try_catch at 1. unfold bind at 1.
    rewrite processGithubEvent_run. fold processing.
    destruct (GithubHandler.attempt env axios (body req) eventType (t1 ++ [processing]))
      as [[r|e] t2] eqn:Hrun.
    + unfold ret. eexists _, _. split; [reflexivity|]. split; [reflexivity|].
      intros e t3 [=].
    + unfold ret. eexists _, _. split; [reflexivity|]. split; [reflexivity|].
      intros e' t3 [= <- _]. split; reflexivity.
  - intros Hauth.
    unfold Server.post_make_webhook, WebhooksRoute.make_route. rewrite Hauth.
    unfold WebhooksRoute.make.
    unfold try_catch at 1. unfold bind at 1. unfold console_log at 1, emit.
    unfold bind at 1. unfold console_log at 1, emit.
    rewrite <- app_assoc. change ([_] ++ [_]) with from_make.
    unfold try_catch at 1. unfold bind at 1.
    destruct (WebhooksRoute.scenario Payload processMemory processLog processSync
                processUpdate scenarioId (body mreq) (t ++ from_make))
      as [[[]|e] t2] eqn:Hrun.
    + unfold ret. eexists _, _. split; [reflexivity|]. split; [reflexivity|].
      intros e t3 [=].
    + unfold bind, console_error, emit, ret.
      eexists _, _. split; [reflexivity|]. split; [reflexivity|].
      intros e' t3 _. split; reflexivity.
Qed.

End Routes.

Lemma dispatch_failures_answered_200_witness :
  (exists resp t',
     Server.post_github_webhook Sample.env Sample.axios_down Json.stringify Sample.now false
       (Sample.signed_request Sample.good_signature) [] = (Ret (Some resp), t') /\
     status_code resp = 200 /\ json_status resp = "error") /\
  (exists resp t',
     Server.post_make_webhook Sample.env Sample.now string Sample.stringify_text
       Sample.handler_fails Sample.handler_ok Sample.handler_ok Sample.handler_ok
       "memory-harvest" (Sample.make_request [("x-webhook-token", "make-token")] "{}") []
     = (Ret resp, t') /\
     status_code resp = 200 /\ json_status resp = "error").
Proof.
  destruct (dispatch_failures_answered_200 Sample.env Sample.axios_down Json.stringify
              Sample.now false string Sample.stringify_text
              Sample.handler_fails Sample.handler_ok Sample.handler_ok Sample.handler_ok
              (Sample.signed_request Sample.good_signature)
              (Sample.make_request [("x-webhook-token", "make-token")] "{}")
              "memory-harvest" []
              [Console LOG
                 [Text "Received GitHub push event (72d3162e-cc78-11e3-81ab-4c9367dc0958)"]])
    as [Hgithub Hmake].
  split.
  - destruct Hgithub as (resp & t' & Hrun & Hcode & Herr); [vm_compute; reflexivity|].
    exists resp, t'. split; [exact Hrun|]. split; [exact Hcode|].
    match type of Herr with
    | forall e t2, ?run = _ -> _ =>
        assert (Hthrow : exists e t2, run = (Throw e, t2))
          by (vm_compute; eexists _, _; reflexivity)
    end.
    destruct Hthrow as (e & t2 & Hthrow). exact (proj1 (Herr e t2 Hthrow)).
  - destruct Hmake as (resp & t' & Hrun & Hcode & Herr); [reflexivity|].
    exists resp, t'. split; [exact Hrun|]. split; [exact Hcode|].
    match type of Herr with
    | forall e t2, ?run = _ -> _ =>
        assert (Hthrow : exists e t2, run = (Throw e, t2))
          by (vm_compute; eexists _, _; reflexivity)
    end.
    destruct Hthrow as (e & t2 & Hthrow). exact (proj1 (Herr e t2 Hthrow)).
Defined.

(** The GitHub route on a correctly signed push while the ClickUp API is
    down: the answer is 200 with status "error". *)
Example webhook_api_down :
  fst (GithubRoute.webhook Sample.env Sample.axios_down Json.stringify Sample.now
         (Sample.signed_request Sample.good_signature) [])
  = Ret (Response 200 "error"
           "Error processing GitHub event: Request failed with status code 401"
           [("eventType", "push");
            ("deliveryId", "72d3162e-cc78-11e3-81ab-4c9367dc0958");
            ("timestamp", Sample.now)]).
Proof. vm_compute. reflexivity. Qed.

(** ** Signatures of the wrong length *)

Section WrongLength.

Context (env : gmap string string)
        (axios : list effect -> axios_request -> outcome clickup_task)
        (JSON_stringify : nat -> github_body -> string) (now : string)
        (forwards_rejections : bool).

(** With a secret configured, the computed digest is 71 bytes long, and
    every non-empty signature header whose UTF-8 encoding has another
    length makes the verifier throw.  The error leaves the route handler,
    which therefore sends no 401; the error middleware answers 500 when
    Express forwards the rejection of an async handler, and otherwise the
    request gets no answer. *)
Lemma wrong_length_signature_escapes
    (req : request github_body) (sig : string) (t : list effect) :
  truthy (env !! "GITHUB_WEBHOOK_SECRET") = true ->
  headers req !! "x-hub-signature-256" = Some sig ->
  sig <> "" ->
  Buffer.byteLength sig <> 71%nat ->
  let received :=
    Console LOG [Text ("Received GitHub " +:+ show (headers req !! "x-github-event") +:+
                       " event (" +:+ show (headers req !! "x-github-delivery") +:+ ")")] in
  Buffer.byteLength (GithubRoute.expected_digest env JSON_stringify req) = 71%nat /\
  GithubRoute.verifyGithubSignature env JSON_stringify req t = (Throw length_error, t) /\
  GithubRoute.webhook env axios JSON_stringify now req t
    = (Throw length_error, t ++ [received]) /\
  Server.post_github_webhook env axios JSON_stringify now forwards_rejections req t
    = if forwards_rejections
      then (Ret (Some (Response 500 "error" "An internal server error occurred" [])),
            (t ++ [received]) ++
              [Console ERROR [Text "Server error:"; ErrorObject length_error]])
      else (Ret None, t ++ [received]).
Proof.
  intros Hsecret Hsig Hne Hlen received.
  assert (Hroute : GithubRoute.webhook env axios JSON_stringify now req t
                   = (Throw length_error, t ++ [received])).
  { unfold GithubRoute.webhook. unfold bind at 1. unfold console_log at 1, emit.
    fold received. unfold bind at 1.
    now rewrite (verify_throws_on_length env JSON_stringify req sig _ Hsecret Hsig Hne Hlen). }
  split; [apply expected_digest_byteLength|].
  split; [now apply (verify_throws_on_length env JSON_stringify req sig)|].
  split; [exact Hroute|].
  unfold Server.post_github_webhook, try_catch. unfold bind at 1. rewrite Hroute.
  destruct forwards_rejections; reflexivity.
Qed.


End WrongLength.


(** An empty signature header is treated like a missing one: the verifier
    returns false without throwing and the route answers 401. *)
Example empty_signature_answered_401 :
  headers (Sample.signed_request "") !! "x-hub-signature-256" = Some "" /\
  truthy (Sample.env !! "GITHUB_WEBHOOK_SECRET") = true /\
  fst (GithubRoute.verifyGithubSignature Sample.env Json.stringify
         (Sample.signed_request "") []) = Ret false /\
  fst (Server.post_github_webhook Sample.env Sample.axios_ok Json.stringify Sample.now true
         (Sample.signed_request "") [])
  = Ret (Some (Response 401 "error" "Invalid signature" [])).
Proof. vm_compute. repeat split; reflexivity. Qed.

(** * Further properties of the code *)

(** ** Which calls a computation can add *)

Lemma sends_ret {A} (P : axios_request -> Prop) (a : A) : sends P (ret a).
Proof. intros t. exists []. split; [now rewrite app_nil_r | constructor]. Qed.

Lemma sends_throw {A} (P : axios_request -> Prop) (e : js_error) : sends P (@throw A e).
Proof. intros t. exists []. split; [now rewrite app_nil_r | constructor]. Qed.

Lemma sends_console (P : axios_request -> Prop) (lvl : console_level) (args : list log_arg) :
  sends P (emit (Console lvl args)).
Proof.
  intros t. exists []. split; [|constructor].
  unfold emit. cbn [snd]. now rewrite posts_console, app_nil_r.
Qed.

Lemma sends_bind {A B} (P : axios_request -> Prop) (m : M A) (k : A -> M B) :
  sends P m -> (forall a, sends P (k a)) -> sends P (bind m k).
Proof.
  intros Hm Hk t. unfold bind. specialize (Hm t).
  destruct (m t) as [[a|e] t1]; cbn [snd] in Hm; destruct Hm as (n1 & H1 & F1).
  - destruct (Hk a t1) as (n2 & H2 & F2). exists (n1 ++ n2).
    split; [now rewrite H2, H1, app_assoc | now apply Forall_app].
  - exists n1. split; assumption.
Qed.

Lemma sends_try_catch {A} (P : axios_request -> Prop) (m : M A) (h : js_error -> M A) :
  sends P m -> (forall e, sends P (h e)) -> sends P (try_catch m h).
Proof.
  intros Hm Hh t. unfold try_catch. specialize (Hm t).
  destruct (m t) as [[a|e] t1]; cbn [snd] in Hm; destruct Hm as (n1 & H1 & F1).
  - exists n1. split; assumption.
  - destruct (Hh e t1) as (n2 & H2 & F2). exists (n1 ++ n2).
    split; [now rewrite H2, H1, app_assoc | now apply Forall_app].
Qed.

Lemma sends_for_of {A} (P : axios_request -> Prop) (xs : list A) (f : A -> M unit) :
  (forall x, sends P (f x)) -> sends P (for_of xs f).
Proof.
  intros Hf. induction xs as [|x xs IH]; cbn [for_of].
  - apply sends_ret.
  - apply sends_bind; [apply Hf | intros _; exact IH].
Qed.

Lemma sends_deref {A} (P : axios_request -> Prop) (v : option A) (prop : string) :
  sends P (deref v prop).
Proof. destruct v; [apply sends_ret | apply sends_throw]. Qed.

Lemma sends_weaken {A} (P Q : axios_request -> Prop) (m : M A) :
  (forall r, P r -> Q r) -> sends P m -> sends Q m.
Proof.
  intros HPQ Hm t. destruct (Hm t) as (new & H & F). exists new.
  split; [exact H | eapply Forall_impl; eauto].
Qed.

Ltac sends_step :=
  first [ apply sends_ret | apply sends_throw | apply sends_deref
        | apply sends_console
        | apply sends_bind; [| intros ?]
        | apply sends_try_catch; [| intros ?] ].

Section WhatIsSent.

Context (env : gmap string string)
        (axios : list effect -> axios_request -> outcome clickup_task).

(** The only call [createClickUpTask] can add is the one for its record,
    and only with both token and list identifier set. *)
Lemma createClickUpTask_sends (task : task_record) :
  sends (fun r => r = GithubHandler.request_of env task /\
                  truthy (env !! "CLICKUP_API_TOKEN") = true /\
                  truthy (task_listId task) = true)
        (GithubHandler.createClickUpTask env axios task).
Proof.
  unfold GithubHandler.createClickUpTask, GithubHandler.CLICKUP_API_TOKEN.
  destruct (truthy (env !! "CLICKUP_API_TOKEN")) eqn:Htoken; cbn [negb].
  2: { unfold console_log. repeat sends_step. }
  destruct (truthy (task_listId task)) eqn:Hlist; cbn [negb].
  2: { unfold console_log. repeat sends_step. }
  apply sends_try_catch.
  - apply sends_bind.
    + intros t. exists [GithubHandler.request_of env task].
      unfold GithubHandler.axios_post. cbn [snd]. rewrite posts_app.
      split; [reflexivity|]. constructor; [|constructor]. now repeat split.
    + intros created. unfold console_log. repeat sends_step.
  - intros e. unfold console_error.
    apply sends_bind; [apply sends_console|]. intros _.
    apply sends_bind; [|intros _; apply sends_throw].
    destruct (error_response e); [apply sends_console | apply sends_ret].
Qed.

Lemma startsWith_list_prefix (listId : option string) :
  truthy listId = true -> exists l, listId = Some l /\ l <> "".
Proof.
  destruct listId as [[|c l]|]; try discriminate. intros _.
  eexists. split; [reflexivity | discriminate].
Qed.

Lemma push_task_call (repository : repository) (branch : string) (c : commit) :
  truthy (env !! "CLICKUP_API_TOKEN") = true ->
  truthy (env !! "CLICKUP_TODO_LIST_ID") = true ->
  clickup_call env (GithubHandler.request_of env
                      (GithubHandler.push_task env repository branch c)).
Proof.
  intros Htoken Hlist. destruct (startsWith_list_prefix _ Hlist) as (l & Hl & Hne).
  split; [exact Htoken|]. split; [reflexivity|]. split.
  - exists l. split; [exact Hne|]. split; [now left|].
    unfold GithubHandler.request_of, GithubHandler.task_request. cbn [post_url task_listId GithubHandler.push_task].
    unfold GithubHandler.TODO. rewrite Hl. reflexivity.
  - eexists. reflexivity.
Qed.

Lemma pull_request_task_call (repository : repository) (pr : pull_request) :
  truthy (env !! "CLICKUP_API_TOKEN") = true ->
  truthy (env !! "CLICKUP_CODE_REVIEWS_LIST_ID") = true ->
  clickup_call env (GithubHandler.request_of env
                      (GithubHandler.pull_request_task env repository pr)).
Proof.
  intros Htoken Hlist. destruct (startsWith_list_prefix _ Hlist) as (l & Hl & Hne).
  split; [exact Htoken|]. split; [reflexivity|]. split.
  - exists l. split; [exact Hne|]. split; [now right; left|].
    unfold GithubHandler.request_of, GithubHandler.task_request.
    cbn [post_url task_listId GithubHandler.pull_request_task].
    unfold GithubHandler.CODE_REVIEWS. rewrite Hl. reflexivity.
  - eexists. reflexivity.
Qed.

Lemma issue_task_call (repository : repository) (i : issue) :
  truthy (env !! "CLICKUP_API_TOKEN") = true ->
  truthy (env !! "CLICKUP_DEV_BACKLOG_LIST_ID") = true ->
  clickup_call env (GithubHandler.request_of env
                      (GithubHandler.issue_task env repository i)).
Proof.
  intros Htoken Hlist. destruct (startsWith_list_prefix _ Hlist) as (l & Hl & Hne).
  split; [exact Htoken|]. split; [reflexivity|]. split.
  - exists l. split; [exact Hne|]. split; [now right; right|].
    unfold GithubHandler.request_of, GithubHandler.task_request.
    cbn [post_url task_listId GithubHandler.issue_task].
    unfold GithubHandler.DEV_BACKLOG. rewrite Hl. reflexivity.
  - eexists. reflexivity.
Qed.

Lemma handlePushEvent_sends (data : github_body) :
  sends (clickup_call env) (GithubHandler.handlePushEvent env axios data).
Proof.
  unfold GithubHandler.handlePushEvent.
  apply sends_bind; [apply sends_deref|]. intros ref.
  apply sends_bind; [apply sends_deref|]. intros repository.
  apply sends_bind; [apply sends_deref|]. intros commits.
  apply sends_bind; [apply sends_console|]. intros _.
  apply sends_for_of. intros c. unfold GithubHandler.push_step.
  destruct (GithubHandler.mentions_todo c); [|apply sends_ret].
  apply sends_bind; [|intros _; apply sends_ret].
  eapply sends_weaken; [|apply createClickUpTask_sends].
  intros r (-> & Htoken & Hlist). now apply push_task_call.
Qed.

Lemma handlePullRequestEvent_sends (data : github_body) :
  sends (clickup_call env) (GithubHandler.handlePullRequestEvent env axios data).
Proof.
  unfold GithubHandler.handlePullRequestEvent.
  destruct (negb _); [apply sends_ret|].
  apply sends_bind; [apply sends_deref|]. intros pr.
  destruct (_ && _); [apply sends_console|].
  apply sends_bind; [apply sends_deref|]. intros repository.
  apply sends_bind; [apply sends_console|]. intros _.
  apply sends_bind; [|intros _; apply sends_ret].
  eapply sends_weaken; [|apply createClickUpTask_sends].
  intros r (-> & Htoken & Hlist). now apply pull_request_task_call.
Qed.

Lemma handleIssuesEvent_sends (data : github_body) :
  sends (clickup_call env) (GithubHandler.handleIssuesEvent env axios data).
Proof.
  unfold GithubHandler.handleIssuesEvent.
  destruct (negb _); [apply sends_ret|].
  apply sends_bind; [apply sends_deref|]. intros i. cbv zeta.
  destruct (negb _); [apply sends_console|].
  apply sends_bind; [apply sends_deref|]. intros repository.
  apply sends_bind; [apply sends_console|]. intros _.
  apply sends_bind; [|intros _; apply sends_ret].
  eapply sends_weaken; [|apply createClickUpTask_sends].
  intros r (-> & Htoken & Hlist). now apply issue_task_call.
Qed.

Lemma processGithubEvent_sends (JSON_stringify : nat -> github_body -> string)
    (data : github_body) (eventType : option string) :
  sends (clickup_call env)
        (GithubHandler.processGithubEvent env axios JSON_stringify data eventType).
Proof.
  unfold GithubHandler.processGithubEvent.
  apply sends_bind; [apply sends_console|]. intros _.
  apply sends_try_catch.
  - unfold GithubHandler.attempt.
    apply sends_bind.
    + unfold GithubHandler.dispatch.
      repeat (destruct (bool_decide _));
        [ apply handlePushEvent_sends | apply handlePullRequestEvent_sends
        | apply handleIssuesEvent_sends | apply sends_console ].
    + intros _. apply sends_bind; [apply sends_console | intros _; apply sends_ret].
  - intros e. apply sends_bind; [apply sends_console | intros _; apply sends_ret].
Qed.

Lemma verifyGithubSignature_sends (P : axios_request -> Prop)
    (JSON_stringify : nat -> github_body -> string) (req : request github_body) :
  sends P (GithubRoute.verifyGithubSignature env JSON_stringify req).
Proof.
  unfold GithubRoute.verifyGithubSignature.
  destruct (negb _).
  - apply sends_bind; [apply sends_console | intros _; apply sends_ret].
  - cbv zeta. destruct (negb _).
    + apply sends_bind; [apply sends_console | intros _; apply sends_ret].
    + destruct (Crypto.timingSafeEqual _ _); [apply sends_ret | apply sends_throw].
Qed.

Lemma post_github_webhook_sends (JSON_stringify : nat -> github_body -> string)
    (now : string) (forwards_rejections : bool) (req : request github_body) :
  sends (clickup_call env)
        (Server.post_github_webhook env axios JSON_stringify now forwards_rejections req).
Proof.
  unfold Server.post_github_webhook. apply sends_try_catch.
  - apply sends_bind; [|intros r; apply sends_ret].
    unfold GithubRoute.webhook. cbv zeta.
    apply sends_bind; [apply sends_console|]. intros _.
    apply sends_bind; [apply verifyGithubSignature_sends|]. intros valid.
    destruct (negb valid).
    + apply sends_bind; [apply sends_console | intros _; apply sends_ret].
    + apply sends_try_catch.
      * apply sends_bind; [apply processGithubEvent_sends | intros r; apply sends_ret].
      * intros e. apply sends_bind; [apply sends_console | intros _; apply sends_ret].
  - intros e. destruct forwards_rejections; [|apply sends_ret].
    unfold Server.errorMiddleware.
    apply sends_bind; [|intros r; apply sends_ret].
    apply sends_bind; [apply sends_console | intros _; apply sends_ret].
Qed.

End WhatIsSent.

(** ** The verifier and the GitHub route, beyond the claims *)

Section GithubRouteExtras.

Context (env : gmap string string)
        (axios : list effect -> axios_request -> outcome clickup_task)
        (JSON_stringify : nat -> github_body -> string) (now : string)
        (forwards_rejections : bool)
        (bodyParser_json : raw_request -> outcome github_body).

(** The signature covers the serialised body only: two requests with the
    same signature header and the same serialised body get the same
    verdict, whatever their other headers (event type, delivery id). *)
Theorem signature_covers_body_only (req1 req2 : request github_body) (t : list effect) :
  headers req1 !! "x-hub-signature-256" = headers req2 !! "x-hub-signature-256" ->
  JSON_stringify 0 (body req1) = JSON_stringify 0 (body req2) ->
  GithubRoute.verifyGithubSignature env JSON_stringify req1 t
  = GithubRoute.verifyGithubSignature env JSON_stringify req2 t.
Proof.
  intros Hsig Hbody.
  unfold GithubRoute.verifyGithubSignature, GithubRoute.expected_digest.
  cbv zeta. now rewrite Hsig, Hbody.
Qed.


(** Once the verifier has returned false, the route answers 401 and
    nothing is processed. *)
Lemma webhook_refused_401 (req : request github_body) (t t1 : list effect) :
  GithubRoute.verifyGithubSignature env JSON_stringify req
    (t ++ [Console LOG [Text ("Received GitHub " +:+ show (headers req !! "x-github-event") +:+
                              " event (" +:+ show (headers req !! "x-github-delivery") +:+
                              ")")]])
  = (Ret false, t1) ->
  GithubRoute.webhook env axios JSON_stringify now req t
  = (Ret (Response 401 "error" "Invalid signature" []),
     t1 ++ [Console ERROR [Text "Invalid GitHub webhook signature"]]).
Proof.
  intros Hverify. unfold GithubRoute.webhook. cbv zeta.
  unfold bind at 1. unfold console_log at 1, emit. unfold bind at 1. rewrite Hverify.
  reflexivity.
Qed.


(** With a secret set, a request without a signature header, or with an
    empty one, is answered 401 "Invalid signature" as soon as the parser
    has accepted its body, whatever that body holds and whatever the
    other headers say.  The whole trace is the reception line, the
    verifier's complaint and the refusal: the digest is not computed, the
    event is not processed and no call leaves the server. *)
Theorem missing_signature_answered_401
    (raw : raw_request) (b : github_body) (t : list effect) :
  truthy (env !! "GITHUB_WEBHOOK_SECRET") = true ->
  truthy (raw_headers raw !! "x-hub-signature-256") = false ->
  bodyParser_json raw = Ret b ->
  Server.github_endpoint env axios JSON_stringify now forwards_rejections bodyParser_json raw t
  = (Ret (Some (Response 401 "error" "Invalid signature" [])),
     t ++ [Console LOG
             [Text ("Received GitHub " +:+ show (raw_headers raw !! "x-github-event") +:+
                    " event (" +:+ show (raw_headers raw !! "x-github-delivery") +:+ ")")];
           Console ERROR [Text "No X-Hub-Signature-256 header in request"];
           Console ERROR [Text "Invalid GitHub webhook signature"]]).
Proof.
  intros Hsecret Hmissing Hparse.
  unfold Server.github_endpoint. rewrite Hparse.
  unfold Server.post_github_webhook, try_catch. unfold bind at 1.
  rewrite (webhook_refused_401 (Request (raw_headers raw) b) t
             ((t ++ [Console LOG
                       [Text ("Received GitHub " +:+
                              show (raw_headers raw !! "x-github-event") +:+ " event (" +:+
                              show (raw_headers raw !! "x-github-delivery") +:+ ")")]]) ++
              [Console ERROR [Text "No X-Hub-Signature-256 header in request"]])).
  - unfold ret. now rewrite <- !app_assoc.
  - unfold GithubRoute.verifyGithubSignature, GithubRoute.GITHUB_WEBHOOK_SECRET.
    cbn [headers]. rewrite Hsecret, Hmissing. reflexivity.
Qed.


End GithubRouteExtras.

Lemma signature_covers_body_only_witness :
  headers (Sample.signed_request Sample.good_signature) !! "x-github-event" = Some "push" /\
  headers Sample.relabelled_request !! "x-github-event" = Some "issues" /\
  GithubRoute.verifyGithubSignature Sample.env Json.stringify
    (Sample.signed_request Sample.good_signature) []
  = GithubRoute.verifyGithubSignature Sample.env Json.stringify Sample.relabelled_request [].
Proof.
  split; [vm_compute; reflexivity|]. split; [vm_compute; reflexivity|].
  apply (signature_covers_body_only Sample.env Json.stringify
           (Sample.signed_request Sample.good_signature) Sample.relabelled_request []);
    vm_compute; reflexivity.
Defined.

Lemma missing_signature_answered_401_witness :
  truthy (Sample.env !! "GITHUB_WEBHOOK_SECRET") = true /\
  Server.github_endpoint Sample.env Sample.axios_ok Json.stringify Sample.now false
    Sample.bodyParser_push
    (Sample.raw_push [("x-github-event", "push"); ("x-hub-signature-256", "")]) []
  = (Ret (Some (Response 401 "error" "Invalid signature" [])),
     [Console LOG [Text "Received GitHub push event (undefined)"];
      Console ERROR [Text "No X-Hub-Signature-256 header in request"];
      Console ERROR [Text "Invalid GitHub webhook signature"]]).
Proof.
  split; [reflexivity|].
  apply (missing_signature_answered_401 Sample.env Sample.axios_ok Json.stringify Sample.now
           false Sample.bodyParser_push
           (Sample.raw_push [("x-github-event", "push"); ("x-hub-signature-256", "")])
           Sample.push_body []);
    vm_compute; reflexivity.
Defined.


(** ** The event processor and the push handler, beyond the claims *)

Lemma filter_nil_false {A} (f : A -> bool) (xs : list A) :
  List.filter f xs = [] -> forall x, In x xs -> f x = false.
Proof.
  induction xs as [|y ys IH]; cbn [List.filter]; intros H x [].
  - subst. destruct (f x); [discriminate | reflexivity].
  - destruct (f y); [discriminate|]. now apply IH.
Qed.

Lemma startsWith_app (q r : string) : JsString.startsWith q (q +:+ r) = true.
Proof.
  induction q as [|a q IH]; simpl; [reflexivity|].
  destruct (ascii_dec a a); [exact IH | congruence].
Qed.

Lemma drop_length_app (q r : string) : JsString.drop (String.length q) (q +:+ r) = r.
Proof. induction q as [|a q IH]; simpl; [reflexivity | exact IH]. Qed.

Lemma replace_found (p r x : string) :
  JsString.startsWith p x = true ->
  JsString.replace p r x = r +:+ JsString.drop (String.length p) x.
Proof. intros H. destruct x; cbn [JsString.replace]; now rewrite H. Qed.

Lemma startsWith_true (p s : string) :
  JsString.startsWith p s = true -> exists rest, s = p +:+ rest.
Proof.
  revert s. induction p as [|a p IH]; intros s H.
  - exists s. reflexivity.
  - destruct s as [|b s]; [discriminate|]. cbn [JsString.startsWith] in H.
    destruct (ascii_dec a b) as [->|]; [|discriminate].
    destruct (IH s H) as [rest ->]. exists rest. reflexivity.
Qed.

(** An occurrence at index 0 is what [startsWith] tests. *)
Lemma occurs_at_head (word s : string) :
  JsString.startsWith word s = true <-> occurs_at word s 0.
Proof.
  split.
  - intros H. destruct (startsWith_true word s H) as [rest ->].
    exists "", rest. split; reflexivity.
  - intros (before & after & -> & Hlen). destruct before; [|discriminate Hlen].
    change (JsString.startsWith word (word +:+ after) = true). apply startsWith_app.
Qed.

Lemma occurs_at_tail (word : string) (c : ascii) (s : string) (i : nat) :
  occurs_at word (String c s) (S i) <-> occurs_at word s i.
Proof.
  split.
  - intros (before & after & E & Hlen).
    destruct before as [|c' before]; [discriminate Hlen|].
    injection Hlen as Hlen. injection E as _ E.
    exists before, after. split; assumption.
  - intros (before & after & -> & <-). exists (String c before), after.
    split; reflexivity.
Qed.

(** A word that [includes] does not find occurs nowhere. *)
Lemma includes_false_no_occurrence (word s : string) (i : nat) :
  JsString.includes word s = false -> ~ occurs_at word s i.
Proof.
  revert s. induction i as [|i IH]; intros s Hs Hocc.
  - apply occurs_at_head in Hocc.
    destruct s; cbn [JsString.includes] in Hs; rewrite Hocc in Hs; discriminate Hs.
  - destruct s as [|c s].
    + destruct Hocc as ([|] & after & Heq & Hlen); discriminate.
    + apply occurs_at_tail in Hocc. cbn [JsString.includes] in Hs.
      apply orb_false_iff in Hs. exact (IH s (proj2 Hs) Hocc).
Qed.

(** [replace] removes the occurrence before which there is no other. *)
Lemma replace_first_occurrence (word r before after : string) :
  (forall i, occurs_at word (before +:+ word +:+ after) i -> (String.length before <= i)%nat) ->
  JsString.replace word r (before +:+ word +:+ after) = before +:+ r +:+ after.
Proof.
  induction before as [|c before IH]; intros Hmin.
  - change (JsString.replace word r (word +:+ after) = r +:+ after).
    rewrite replace_found by apply startsWith_app. now rewrite drop_length_app.
  - change (String c before +:+ word +:+ after)
      with (String c (before +:+ word +:+ after)) in *.
    change (String c before +:+ r +:+ after) with (String c (before +:+ r +:+ after)).
    cbn [JsString.replace].
    destruct (JsString.startsWith word (String c (before +:+ word +:+ after))) eqn:E.
    + apply occurs_at_head, Hmin in E. cbn [String.length] in E. lia.
    + f_equal. apply IH. intros i Hi.
      apply (occurs_at_tail word c), Hmin in Hi. cbn [String.length] in Hi. lia.
Qed.

Lemma replace_no_occurrence (word r s : string) :
  (forall i, ~ occurs_at word s i) -> JsString.replace word r s = s.
Proof.
  induction s as [|c s IH]; intros Hno; cbn [JsString.replace].
  - destruct (JsString.startsWith word "") eqn:E; [|reflexivity].
    apply occurs_at_head in E. now apply Hno in E.
  - destruct (JsString.startsWith word (String c s)) eqn:E.
    + apply occurs_at_head in E. now apply Hno in E.
    + f_equal. apply IH. intros i Hi. apply (Hno (S i)). now apply occurs_at_tail.
Qed.

(** What [s.replace(word, '')] returns is [s] without its first [word]. *)
Lemma replace_without_first (word s r : string) :
  without_first word s r -> JsString.replace word "" s = r.
Proof.
  intros [(before & after & -> & -> & Hmin) | [Hno ->]].
  - now rewrite replace_first_occurrence.
  - now apply replace_no_occurrence.
Qed.

(** Every string has such a remainder. *)
Lemma without_first_total (word s : string) : exists r, without_first word s r.
Proof.
  induction s as [|c s IH].
  - destruct (JsString.startsWith word "") eqn:E.
    + destruct (startsWith_true word "" E) as [rest Hrest].
      exists rest. left. exists "", rest.
      split; [exact Hrest|]. split; [reflexivity|]. intros i _. apply Nat.le_0_l.
    + exists "". right. split; [|reflexivity].
      intros i (before & after & Heq & _).
      destruct before; [|discriminate Heq].
      destruct word; [discriminate E | discriminate Heq].
  - destruct (JsString.startsWith word (String c s)) eqn:E.
    + destruct (startsWith_true word (String c s) E) as [rest Hrest].
      exists rest. left. exists "", rest.
      split; [exact Hrest|]. split; [reflexivity|]. intros i _. apply Nat.le_0_l.
    + destruct IH as [r [(before & after & Hs & Hr & Hmin) | [Hno Hr]]].
      * exists (String c r). left. exists (String c before), after.
        split; [now rewrite Hs|]. split; [now rewrite Hr|].
        intros [|i] Hi.
        -- apply occurs_at_head in Hi. congruence.
        -- apply occurs_at_tail, Hmin in Hi. cbn [String.length]. lia.
      * exists (String c s). right. split; [|reflexivity].
        intros [|i] Hi.
        -- apply occurs_at_head in Hi. congruence.
        -- apply occurs_at_tail in Hi. now apply Hno in Hi.
Qed.

Section HandlerExtras.

Context (env : gmap string string)
        (axios : list effect -> axios_request -> outcome clickup_task)
        (JSON_stringify : nat -> github_body -> string).

(** Commits that do not mention "todo" leave no trace in the loop. *)
Lemma push_loop_skip (repository : repository) (branch : string)
    (pre rest : list commit) (t : list effect) :
  (forall c, In c pre -> GithubHandler.mentions_todo c = false) ->
  for_of (pre ++ rest) (GithubHandler.push_step env axios repository branch) t
  = for_of rest (GithubHandler.push_step env axios repository branch) t.
Proof.
  induction pre as [|c pre IH]; intros Hpre; [reflexivity|].
  cbn [app for_of]. unfold bind at 1. unfold GithubHandler.push_step at 1.
  rewrite (Hpre c (or_introl eq_refl)). unfold ret at 1.
  apply IH. intros c' Hin. apply Hpre. now right.
Qed.

(** A push payload unfolds to its log line followed by the loop. *)
Lemma handlePushEvent_run (data : github_body) (ref : string) (repository : repository)
    (commits : list commit) (t : list effect) :
  body_ref data = Some ref ->
  body_repository data = Some repository ->
  body_commits data = Some commits ->
  GithubHandler.handlePushEvent env axios data t
  = for_of commits
      (GithubHandler.push_step env axios repository (JsString.replace "refs/heads/" "" ref))
      (t ++ [Console LOG
               [Text ("Push to " +:+ repo_full_name repository +:+ " on branch " +:+
                      JsString.replace "refs/heads/" "" ref +:+ " with " +:+
                      pretty (length commits) +:+ " commits")]]).
Proof.
  intros Href Hrepo Hcommits.
  unfold GithubHandler.handlePushEvent. rewrite Href, Hrepo, Hcommits.
  reflexivity.
Qed.

(** [processGithubEvent] never throws: it always returns a result whose
    status is "success" or "error", and the status is "error" exactly when
    the handler or the logging step threw. *)
Theorem processGithubEvent_never_throws (data : github_body) (eventType : option string)
    (t : list effect) :
  exists r t',
    GithubHandler.processGithubEvent env axios JSON_stringify data eventType t = (Ret r, t') /\
    (result_status r = "success" \/ result_status r = "error") /\
    (result_status r = "error" <->
     exists e t2,
       GithubHandler.attempt env axios data eventType
         (t ++ [Console LOG [Text ("Processing GitHub " +:+ show eventType +:+ " event:");
                             Text (JSON_stringify 2 data)]])
       = (Throw e, t2)).
Proof.
  rewrite processGithubEvent_run.
  destruct (GithubHandler.attempt _ _ _ _ _) as [[r|e] t2] eqn:Hrun.
  - pose proof (attempt_result env axios _ _ _ _ _ Hrun) as Hr.
    exists r, t2. split; [reflexivity|]. split; [now left|].
    rewrite Hr. split; [discriminate | intros (? & ? & [=])].
  - eexists _, _. split; [reflexivity|]. split; [now right|].
    split; [intros _; eauto | reflexivity].
Qed.

(** An event type other than push, pull_request and issues (or none at
    all) is acknowledged with status "success": it is logged as not
    configured, the storage placeholder logs it, and no handler runs. *)
Theorem unknown_event_acknowledged (data : github_body) (eventType : option string)
    (t : list effect) :
  eventType <> Some "push" ->
  eventType <> Some "pull_request" ->
  eventType <> Some "issues" ->
  GithubHandler.processGithubEvent env axios JSON_stringify data eventType t
  = (Ret {| result_status := "success";
            result_message := "GitHub " +:+ show eventType +:+
                              " event processed successfully" |},
     t ++ [Console LOG [Text ("Processing GitHub " +:+ show eventType +:+ " event:");
                        Text (JSON_stringify 2 data)];
           Console LOG [Text ("Event type " +:+ show eventType +:+
                              " not configured for processing")];
           Console LOG [Text ("[MongoDB] Logging GitHub " +:+ show eventType +:+
                              " event to database")]]).
Proof.
  intros H1 H2 H3. rewrite processGithubEvent_run.
  unfold GithubHandler.attempt, GithubHandler.dispatch.
  rewrite !bool_decide_eq_false_2 by assumption.
  unfold GithubHandler.logEventToMongoDB, bind, console_log, emit, ret.
  now rewrite <- !app_assoc.
Qed.

(** A push none of whose commits mentions "todo" (an empty commit list
    included) only writes its log line: no task is attempted, whether or
    not the client is configured and whatever the API would answer. *)
Theorem push_without_todo_sends_nothing (data : github_body) (ref : string)
    (repository : repository) (commits : list commit) (t : list effect) :
  body_ref data = Some ref ->
  body_repository data = Some repository ->
  body_commits data = Some commits ->
  List.filter GithubHandler.mentions_todo commits = [] ->
  GithubHandler.handlePushEvent env axios data t
  = (Ret tt,
     t ++ [Console LOG
             [Text ("Push to " +:+ repo_full_name repository +:+ " on branch " +:+
                    JsString.replace "refs/heads/" "" ref +:+ " with " +:+
                    pretty (length commits) +:+ " commits")]]).
Proof.
  intros Href Hrepo Hcommits Hnone.
  rewrite (handlePushEvent_run data ref repository commits t Href Hrepo Hcommits).
  rewrite <- (app_nil_r commits) at 1.
  rewrite push_loop_skip; [reflexivity|].
  now apply filter_nil_false.
Qed.

(** When the API refuses the call for the first commit that mentions
    "todo", the push handler throws that error at once: the one failed
    call is all that was sent, and the commits after it are not looked at. *)
Theorem push_failure_stops_loop (data : github_body) (ref : string)
    (repository : repository) (pre rest : list commit) (c : commit)
    (e : js_error) (t : list effect) :
  truthy (env !! "CLICKUP_API_TOKEN") = true ->
  truthy (env !! "CLICKUP_TODO_LIST_ID") = true ->
  body_ref data = Some ref ->
  body_repository data = Some repository ->
  body_commits data = Some (pre ++ c :: rest) ->
  (forall c', In c' pre -> GithubHandler.mentions_todo c' = false) ->
  GithubHandler.mentions_todo c = true ->
  let branch := JsString.replace "refs/heads/" "" ref in
  let call := GithubHandler.request_of env
                (GithubHandler.push_task env repository branch c) in
  let logged :=
    t ++ [Console LOG
            [Text ("Push to " +:+ repo_full_name repository +:+ " on branch " +:+
                   branch +:+ " with " +:+ pretty (length (pre ++ c :: rest)) +:+
                   " commits")]] in
  axios logged call = Throw e ->
  exists t',
    GithubHandler.handlePushEvent env axios data t = (Throw e, t') /\
    posts t' = posts t ++ [call].
Proof.
  intros Htoken Hlist Href Hrepo Hcommits Hpre Hc branch call logged Hfail.
  rewrite (handlePushEvent_run data ref repository _ t Href Hrepo Hcommits).
  fold branch. fold logged. rewrite push_loop_skip by assumption.
  cbn [for_of]. unfold bind at 1. unfold GithubHandler.push_step at 1. rewrite Hc.
  unfold bind at 1.
  rewrite (createClickUpTask_failed env axios
             (GithubHandler.push_task env repository branch c) logged e Htoken Hlist Hfail).
  eexists. split; [reflexivity|].
  fold call. rewrite !posts_app. unfold logged. rewrite posts_console.
  cbn [posts omap]. destruct (error_response e); cbn; now rewrite ?app_nil_r.
Qed.

(** A push event whose payload lacks [ref], [repository] or [commits] is
    answered with status "error" (a TypeError caught by the processor);
    nothing is sent. *)
Theorem malformed_push_reports_error (data : github_body) (t : list effect) :
  body_ref data = None \/ body_repository data = None \/ body_commits data = None ->
  exists r t',
    GithubHandler.processGithubEvent env axios JSON_stringify data (Some "push") t
    = (Ret r, t') /\
    result_status r = "error" /\
    posts t' = posts t.
Proof.
  intros Hmissing.
  assert (Hthrow : forall t0, exists prop,
             GithubHandler.handlePushEvent env axios data t0
             = (Throw (undefined_read prop), t0)).
  { intros t0. unfold GithubHandler.handlePushEvent.
    destruct (body_ref data) as [ref|]; [|eexists; reflexivity].
    destruct (body_repository data) as [repository|]; [|eexists; reflexivity].
    destruct (body_commits data) as [commits|]; [|eexists; reflexivity].
    destruct Hmissing as [H | [H | H]]; discriminate H. }
  rewrite processGithubEvent_run.
  unfold GithubHandler.attempt, GithubHandler.dispatch. cbn [bool_decide decide].
  rewrite bool_decide_eq_true_2 by reflexivity. unfold bind at 1.
  match goal with
  | |- context [GithubHandler.handlePushEvent env axios data ?t0] =>
      destruct (Hthrow t0) as [prop Hrun]; rewrite Hrun
  end.
  eexists _, _. split; [reflexivity|]. split; [reflexivity|].
  now rewrite !posts_console.
Qed.

(** The branch used in the log line and in every task of a push is the
    ref with its first "refs/heads/" removed, wherever in the ref that
    text stands: "refs/heads/main" gives "main" and "x/refs/heads/y" gives
    "x/y".  Only the first occurrence goes, and a ref that does not
    contain the text (a tag ref, say) is used as it is.  Every ref has
    such a branch. *)
Theorem push_branch_from_ref (data : github_body) (ref : string)
    (repository : repository) (commits : list commit) (t : list effect) :
  body_ref data = Some ref ->
  body_repository data = Some repository ->
  body_commits data = Some commits ->
  (exists branch, without_first "refs/heads/" ref branch) /\
  (forall branch,
     without_first "refs/heads/" ref branch ->
     GithubHandler.handlePushEvent env axios data t
     = for_of commits (GithubHandler.push_step env axios repository branch)
         (t ++ [Console LOG
                  [Text ("Push to " +:+ repo_full_name repository +:+ " on branch " +:+
                         branch +:+ " with " +:+ pretty (length commits) +:+ " commits")]])).
Proof.
  intros Href Hrepo Hcommits. split; [apply without_first_total|].
  intros branch Hbranch.
  rewrite (handlePushEvent_run data ref repository commits t Href Hrepo Hcommits).
  now rewrite (replace_without_first _ _ _ Hbranch).
Qed.

End HandlerExtras.

Lemma unknown_event_acknowledged_witness :
  fst (GithubHandler.processGithubEvent Sample.env Sample.axios_down Json.stringify
         Sample.ping_body (Some "ping") [])
  = Ret {| result_status := "success";
           result_message := "GitHub ping event processed successfully" |}.
Proof.
  rewrite (unknown_event_acknowledged Sample.env Sample.axios_down Json.stringify
             Sample.ping_body (Some "ping") []); [reflexivity | | | ]; discriminate.
Defined.

Lemma push_without_todo_sends_nothing_witness :
  List.filter GithubHandler.mentions_todo [Sample.commit_plain] = [] /\
  GithubHandler.handlePushEvent Sample.env Sample.axios_down Sample.quiet_push_body []
  = (Ret tt,
     [Console LOG [Text "Push to CelestialSeed/webhooks on branch docs with 1 commits"]]).
Proof.
  split; [reflexivity|].
  apply (push_without_todo_sends_nothing Sample.env Sample.axios_down
           Sample.quiet_push_body "refs/heads/docs" Sample.repo [Sample.commit_plain] []);
    reflexivity.
Defined.

Lemma push_failure_stops_loop_witness :
  GithubHandler.mentions_todo Sample.commit_shout = true /\
  exists t',
    GithubHandler.handlePushEvent Sample.env Sample.axios_down Sample.push_body []
    = (Throw (JsError "AxiosError" "Request failed with status code 401"
                      (Some "{ err: 'Token invalid', ECODE: 'OAUTH_025' }")), t') /\
    posts t' = posts [] ++
               [GithubHandler.request_of Sample.env
                  (GithubHandler.push_task Sample.env Sample.repo "main" Sample.commit_todo)].
Proof.
  split; [reflexivity|].
  apply (push_failure_stops_loop Sample.env Sample.axios_down Sample.push_body
           "refs/heads/main" Sample.repo [] [Sample.commit_plain; Sample.commit_shout]
           Sample.commit_todo);
    try reflexivity.
  intros c' [].
Defined.

Lemma malformed_push_reports_error_witness :
  body_ref Sample.ping_body = None /\
  exists r t',
    GithubHandler.processGithubEvent Sample.env Sample.axios_ok Json.stringify
      Sample.ping_body (Some "push") [] = (Ret r, t') /\
    result_status r = "error" /\ posts t' = posts [].
Proof.
  split; [reflexivity|].
  apply (malformed_push_reports_error Sample.env Sample.axios_ok Json.stringify
           Sample.ping_body []).
  left. reflexivity.
Defined.

Lemma push_branch_from_ref_witness :
  GithubHandler.handlePushEvent Sample.env Sample.axios_ok Sample.nested_ref_push_body []
  = for_of []
      (GithubHandler.push_step Sample.env Sample.axios_ok Sample.repo "x/y")
      [Console LOG [Text "Push to CelestialSeed/webhooks on branch x/y with 0 commits"]] /\
  GithubHandler.handlePushEvent Sample.env Sample.axios_ok Sample.tag_push_body []
  = for_of []
      (GithubHandler.push_step Sample.env Sample.axios_ok Sample.repo "refs/tags/v1.0")
      [Console LOG
         [Text "Push to CelestialSeed/webhooks on branch refs/tags/v1.0 with 0 commits"]].
Proof.
  split.
  - apply (push_branch_from_ref Sample.env Sample.axios_ok Sample.nested_ref_push_body
             "x/refs/heads/y" Sample.repo [] [] eq_refl eq_refl eq_refl).
    left. exists "x/", "y". split; [reflexivity|]. split; [reflexivity|].
    intros i (before & after & Heq & <-).
    destruct before as [|c1 [|c2 before]]; [discriminate Heq | discriminate Heq|].
    cbn [String.length]. lia.
  - apply (push_branch_from_ref Sample.env Sample.axios_ok Sample.tag_push_body
             "refs/tags/v1.0" Sample.repo [] [] eq_refl eq_refl eq_refl).
    right. split; [|reflexivity].
    intros i. now apply includes_false_no_occurrence.
Defined.

(** ** The name of a push task *)

Lemma first_line_no_line_feed (m : string) :
  ~ In "010"%char (JsString.chars (JsString.first_line m)).
Proof.
  induction m as [|c m IH]; cbn [JsString.first_line]; [intros []|].
  destruct (ascii_dec c "010"); [intros []|].
  cbn [JsString.chars list_ascii_of_string]. intros [E | Hin]; [congruence|].
  now apply IH.
Qed.

Lemma first_line_split (m : string) :
  m = JsString.first_line m \/
  exists rest, m = JsString.first_line m +:+ String "010"%char rest.
Proof.
  induction m as [|c m IH]; cbn [JsString.first_line]; [now left|].
  destruct (ascii_dec c "010") as [-> | Hc].
  - right. exists m. reflexivity.
  - destruct IH as [IH | (rest & IH)].
    + left. now rewrite <- IH.
    + right. exists rest.
      change (String c m = String c (JsString.first_line m +:+ String "010"%char rest)).
      f_equal. exact IH.
Qed.

(** The name of a push task is "TODO from commit: " followed by the first
    line of the commit message: that line holds no line feed, and the
    message is either that line alone or that line, a line feed and more. *)
Theorem push_task_name_first_line (env : gmap string string) (repository : repository)
    (branch : string) (c : commit) :
  let line := JsString.first_line (commit_message c) in
  task_name (GithubHandler.push_task env repository branch c)
  = "TODO from commit: " +:+ line /\
  ~ In "010"%char (JsString.chars line) /\
  (commit_message c = line \/
   exists rest, commit_message c = line +:+ String "010"%char rest).
Proof.
  intros line. split; [reflexivity|].
  split; [apply first_line_no_line_feed | apply first_line_split].
Qed.

(** ** The task client, beyond the claims *)

Section TaskClientExtras.

Context (env : gmap string string)
        (axios : list effect -> axios_request -> outcome clickup_task).

(** With token and list set and the API accepting the call,
    [createClickUpTask] returns the created record after exactly one POST
    to [<base>/list/<listId>/task], which carries the bare token as
    Authorization header and the record's name, description and tags. *)
Theorem createClickUpTask_success (task : task_record) (token listId : string)
    (created : clickup_task) (t : list effect) :
  env !! "CLICKUP_API_TOKEN" = Some token -> token <> "" ->
  task_listId task = Some listId -> listId <> "" ->
  let call :=
    {| post_url := "https://api.clickup.com/api/v2/list/" +:+ listId +:+ "/task";
       post_name := task_name task;
       post_description := task_description task;
       post_tags := task_tags task;
       post_headers := [("Authorization", token); ("Content-Type", "application/json")] |} in
  axios t call = Ret created ->
  GithubHandler.createClickUpTask env axios task t
  = (Ret (Some created),
     t ++ [HttpPost call;
           Console LOG [Text ("Created ClickUp task: " +:+ created_id created +:+
                              " - " +:+ task_name task)]]).
Proof.
  intros Htoken Hne Hlist Hne' call Hok.
  assert (Hcall : GithubHandler.request_of env task = call).
  { unfold GithubHandler.request_of, GithubHandler.task_request,
      GithubHandler.CLICKUP_API_TOKEN. rewrite Htoken, Hlist. reflexivity. }
  rewrite (createClickUpTask_created env axios task t created).
  - now rewrite Hcall.
  - rewrite Htoken. now apply truthy_Some.
  - rewrite Hlist. now apply truthy_Some.
  - now rewrite Hcall.
Qed.

(** [createClickUpTask] never sends more than one request and never
    retries: whatever the configuration and the answer of the API, the
    calls made before are kept and at most the call for this record is
    added. *)
Theorem createClickUpTask_at_most_one_call (task : task_record) (t : list effect) :
  posts (snd (GithubHandler.createClickUpTask env axios task t)) = posts t \/
  posts (snd (GithubHandler.createClickUpTask env axios task t))
  = posts t ++ [GithubHandler.request_of env task].
Proof.
  destruct (truthy (env !! "CLICKUP_API_TOKEN")) eqn:Htoken.
  2: { left. rewrite createClickUpTask_no_token by assumption. apply posts_console. }
  destruct (truthy (task_listId task)) eqn:Hlist.
  2: { left. rewrite createClickUpTask_no_list by assumption. apply posts_console. }
  right. destruct (axios t (GithubHandler.request_of env task)) as [created|e] eqn:Hcall.
  - rewrite (createClickUpTask_created env axios task t created) by assumption.
    cbn [snd]. now rewrite app_assoc, posts_console, posts_app.
  - rewrite (createClickUpTask_failed env axios task t e) by assumption.
    cbn [snd]. rewrite !posts_app. destruct (error_response e); cbn; now rewrite ?app_nil_r.
Qed.

End TaskClientExtras.

Lemma createClickUpTask_success_witness :
  Sample.env !! "CLICKUP_API_TOKEN" = Some "pk_81_TOKEN" /\
  GithubHandler.createClickUpTask Sample.env Sample.axios_ok
    (GithubHandler.pull_request_task Sample.env Sample.repo (Sample.pr "main")) []
  = (Ret (Some (ClickUpTask "task-0")),
     [HttpPost
        {| post_url := "https://api.clickup.com/api/v2/list/9002/task";
           post_name := "Review PR #7: Add health route";
           post_description :=
             task_description
               (GithubHandler.pull_request_task Sample.env Sample.repo (Sample.pr "main"));
           post_tags := ["github"; "pull-request"; "webhooks"];
           post_headers := [("Authorization", "pk_81_TOKEN");
                            ("Content-Type", "application/json")] |};
      Console LOG [Text "Created ClickUp task: task-0 - Review PR #7: Add health route"]]).
Proof.
  split; [reflexivity|].
  apply (createClickUpTask_success Sample.env Sample.axios_ok
           (GithubHandler.pull_request_task Sample.env Sample.repo (Sample.pr "main"))
           "pk_81_TOKEN" "9002" (ClickUpTask "task-0") []);
    first [reflexivity | discriminate].
Defined.

(** ** What leaves the server *)

Section Outbound.

Context (env : gmap string string)
        (axios : list effect -> axios_request -> outcome clickup_task)
        (JSON_stringify : nat -> github_body -> string) (now : string)
        (forwards_rejections : bool).

(** Whatever a request to the GitHub endpoint holds and however it ends,
    the calls made earlier are untouched and every call it adds is a task
    creation: the configured token as Authorization header, one of the
    three configured lists in the URL, [github] as first tag. *)
Theorem github_endpoint_only_creates_tasks (req : request github_body) (t : list effect) :
  exists new,
    posts (snd (Server.post_github_webhook env axios JSON_stringify now
                  forwards_rejections req t))
    = posts t ++ new /\
    Forall (clickup_call env) new.
Proof. apply post_github_webhook_sends. Qed.

(** Without an API token no request to the GitHub endpoint makes any
    outbound call, whatever its event type, payload and signature. *)
Theorem no_token_no_outbound_call (req : request github_body) (t : list effect) :
  truthy (env !! "CLICKUP_API_TOKEN") = false ->
  posts (snd (Server.post_github_webhook env axios JSON_stringify now
                forwards_rejections req t))
  = posts t.
Proof.
  intros Htoken.
  destruct (post_github_webhook_sends env axios JSON_stringify now forwards_rejections req t)
    as (new & Hposts & Hnew).
  destruct new as [|r new]; [now rewrite Hposts, app_nil_r|].
  inversion Hnew as [|? ? (Hr & _) _]; subst. congruence.
Qed.

End Outbound.

Lemma no_token_no_outbound_call_witness :
  truthy (Sample.env_bare !! "CLICKUP_API_TOKEN") = false /\
  posts (snd (Server.post_github_webhook Sample.env_bare Sample.axios_ok Json.stringify
                Sample.now false (Sample.signed_request "sha256=forged") []))
  = posts [].
Proof.
  split; [reflexivity|].
  apply (no_token_no_outbound_call Sample.env_bare Sample.axios_ok Json.stringify Sample.now
           false (Sample.signed_request "sha256=forged") []).
  reflexivity.
Defined.

(** ** The MAKE endpoint, beyond the claims *)

Section MakeExtras.

Context (env : gmap string string) (Payload : Type)
        (JSON_stringify : nat -> Payload -> string) (now : string)
        (processMemory processLog processSync processUpdate : Payload -> M unit)
        (bodyParser_json : raw_request -> outcome Payload).

(** A request passes the token check exactly when it carries a non-empty
    token equal to the configured secret. *)
Theorem authenticateWebhook_next_iff (req : request Payload) :
  Auth.authenticateWebhook env req = Auth.Next <->
  exists token,
    token <> "" /\
    headers req !! "x-webhook-token" = Some token /\
    env !! "MAKE_WEBHOOK_SECRET" = Some token.
Proof.
  unfold Auth.authenticateWebhook. cbv zeta. split.
  - destruct (headers req !! "x-webhook-token") as [[|c token]|] eqn:Htoken;
      cbn [truthy negb]; try discriminate.
    destruct (bool_decide _) eqn:E; cbn [negb]; [|discriminate].
    intros _. apply bool_decide_eq_true in E.
    exists (String c token). split; [discriminate|]. split; [reflexivity | now symmetry].
  - intros (token & Hne & Htoken & Hsecret). rewrite Htoken.
    apply truthy_Some in Hne. rewrite Hne. cbn [negb].
    now rewrite bool_decide_eq_true_2 by congruence.
Qed.



(** A scenario identifier outside the four known ones is acknowledged like
    any other: a warning is logged, no handler runs, and the answer is 200
    "success" echoing the identifier. *)
Theorem make_unknown_scenario_acknowledged (scenarioId : string) (req : request Payload)
    (t : list effect) :
  scenarioId <> "memory-harvest" ->
  scenarioId <> "discord-log" ->
  scenarioId <> "clickup-sync" ->
  scenarioId <> "notion-update" ->
  WebhooksRoute.make Payload JSON_stringify now
    processMemory processLog processSync processUpdate scenarioId req t
  = (Ret (Response 200 "success" "Webhook received successfully"
            [("scenarioId", scenarioId); ("timestamp", now)]),
     t ++ [Console LOG [Text ("Received webhook from MAKE.com scenario: " +:+ scenarioId)];
           Console LOG [Text "Payload:"; Text (JSON_stringify 2 (body req))];
           Console WARN [Text ("Unknown scenario ID: " +:+ scenarioId)]]).
Proof.
  intros H1 H2 H3 H4.
  unfold WebhooksRoute.make, WebhooksRoute.scenario. cbv zeta.
  rewrite !bool_decide_eq_false_2 by assumption.
  unfold try_catch, bind, console_log, console_warn, emit, ret.
  now rewrite <- !app_assoc.
Qed.



End MakeExtras.

Lemma authenticateWebhook_next_iff_witness :
  Auth.authenticateWebhook Sample.env
    (Sample.make_request [("x-webhook-token", "make-token")] "{}") = Auth.Next /\
  Auth.authenticateWebhook Sample.env_bare (Sample.make_request [] "{}") <> Auth.Next.
Proof.
  split.
  - apply (authenticateWebhook_next_iff Sample.env string
             (Sample.make_request [("x-webhook-token", "make-token")] "{}")).
    exists "make-token". split; [discriminate|]. split; reflexivity.
  - intros H.
    apply (authenticateWebhook_next_iff Sample.env_bare string
             (Sample.make_request [] "{}")) in H.
    destruct H as (token & _ & H & _). discriminate H.
Defined.


Lemma make_unknown_scenario_acknowledged_witness :
  fst (WebhooksRoute.make string Sample.stringify_text Sample.now
         Sample.handler_fails Sample.handler_fails Sample.handler_fails Sample.handler_fails
         "calendar-sync" (Sample.make_request [("x-webhook-token", "make-token")] "{}") [])
  = Ret (Response 200 "success" "Webhook received successfully"
           [("scenarioId", "calendar-sync"); ("timestamp", Sample.now)]).
Proof.
  rewrite (make_unknown_scenario_acknowledged string Sample.stringify_text Sample.now
             Sample.handler_fails Sample.handler_fails Sample.handler_fails
             Sample.handler_fails "calendar-sync"
             (Sample.make_request [("x-webhook-token", "make-token")] "{}") []);
    [reflexivity | | | | ]; discriminate.
Defined.

(** ** Each handler and its list *)

Lemma sends_bind_ret {A B} (P : axios_request -> Prop) (a : A) (k : A -> M B) :
  sends P (k a) -> sends P (bind (ret a) k).
Proof. intros H t. exact (H t). Qed.

Lemma sends_bind_throw {A B} (P : axios_request -> Prop) (e : js_error) (k : A -> M B) :
  sends P (bind (throw e) k).
Proof. intros t. exists []. split; [now rewrite app_nil_r | constructor]. Qed.

Section OwnList.

Context (env : gmap string string)
        (axios : list effect -> axios_request -> outcome clickup_task).

Lemma createClickUpTask_to_list (task : task_record) (key : string) :
  task_listId task = env !! key ->
  sends (call_to_list env key (task_tags task))
        (GithubHandler.createClickUpTask env axios task).
Proof.
  intros Hkey. eapply sends_weaken; [|apply createClickUpTask_sends].
  intros r (-> & _ & Hlist).
  destruct (startsWith_list_prefix _ Hlist) as (l & Hl & Hne).
  exists l. split; [now rewrite <- Hkey|]. split; [exact Hne|]. split; [|reflexivity].
  unfold GithubHandler.request_of, GithubHandler.task_request. cbn [post_url].
  now rewrite Hl.
Qed.

(** Each handler creates tasks in its own list only, with its own tags:
    push events in the TODO list tagged [github; todo; commit], pull
    requests in the code-reviews list and issues in the dev-backlog list,
    tagged with the name of the payload's repository.  In particular a
    handler whose list identifier is unset or empty sends nothing. *)
Theorem handlers_use_their_own_list (data : github_body) :
  sends (call_to_list env "CLICKUP_TODO_LIST_ID" ["github"; "todo"; "commit"])
        (GithubHandler.handlePushEvent env axios data) /\
  sends (fun r => exists repository,
                    body_repository data = Some repository /\
                    call_to_list env "CLICKUP_CODE_REVIEWS_LIST_ID"
                      ["github"; "pull-request"; repo_name repository] r)
        (GithubHandler.handlePullRequestEvent env axios data) /\
  sends (fun r => exists repository,
                    body_repository data = Some repository /\
                    call_to_list env "CLICKUP_DEV_BACKLOG_LIST_ID"
                      ["github"; "issue"; repo_name repository] r)
        (GithubHandler.handleIssuesEvent env axios data).
Proof.
  split; [|split].
  - unfold GithubHandler.handlePushEvent.
    apply sends_bind; [apply sends_deref|]. intros ref.
    apply sends_bind; [apply sends_deref|]. intros repository.
    apply sends_bind; [apply sends_deref|]. intros commits.
    apply sends_bind; [apply sends_console|]. intros _.
    apply sends_for_of. intros c. unfold GithubHandler.push_step.
    destruct (GithubHandler.mentions_todo c); [|apply sends_ret].
    apply sends_bind; [|intros _; apply sends_ret].
    apply (createClickUpTask_to_list
             (GithubHandler.push_task env repository _ c) "CLICKUP_TODO_LIST_ID").
    reflexivity.
  - unfold GithubHandler.handlePullRequestEvent.
    destruct (negb _); [apply sends_ret|].
    apply sends_bind; [apply sends_deref|]. intros pr.
    destruct (_ && _); [apply sends_console|].
    destruct (body_repository data) as [repository|]; cbn [deref];
      [apply sends_bind_ret | apply sends_bind_throw].
    apply sends_bind; [apply sends_console|]. intros _.
    apply sends_bind; [|intros _; apply sends_ret].
    eapply sends_weaken;
      [|apply (createClickUpTask_to_list
                 (GithubHandler.pull_request_task env repository pr)
                 "CLICKUP_CODE_REVIEWS_LIST_ID"); reflexivity].
    intros r Hr. exists repository. split; [reflexivity | exact Hr].
  - unfold GithubHandler.handleIssuesEvent.
    destruct (negb _); [apply sends_ret|].
    apply sends_bind; [apply sends_deref|]. intros i. cbv zeta.
    destruct (negb _); [apply sends_console|].
    destruct (body_repository data) as [repository|]; cbn [deref];
      [apply sends_bind_ret | apply sends_bind_throw].
    apply sends_bind; [apply sends_console|]. intros _.
    apply sends_bind; [|intros _; apply sends_ret].
    eapply sends_weaken;
      [|apply (createClickUpTask_to_list
                 (GithubHandler.issue_task env repository i)
                 "CLICKUP_DEV_BACKLOG_LIST_ID"); reflexivity].
    intros r Hr. exists repository. split; [reflexivity | exact Hr].
Qed.

(** An opened or reopened pull_request event without its [pull_request],
    or issues event without its [issue], is answered with status "error"
    (a TypeError caught by the processor), and nothing is sent. *)
Theorem malformed_review_reports_error (JSON_stringify : nat -> github_body -> string)
    (data : github_body) (t : list effect) :
  body_action data = Some "opened" \/ body_action data = Some "reopened" ->
  (body_pull_request data = None ->
   exists r t',
     GithubHandler.processGithubEvent env axios JSON_stringify data (Some "pull_request") t
     = (Ret r, t') /\
     result_status r = "error" /\ posts t' = posts t) /\
  (body_issue data = None ->
   exists r t',
     GithubHandler.processGithubEvent env axios JSON_stringify data (Some "issues") t
     = (Ret r, t') /\
     result_status r = "error" /\ posts t' = posts t).
Proof.
  intros Hact. apply opened_or_reopened_iff in Hact. split; intros Hmissing.
  - rewrite processGithubEvent_run.
    unfold GithubHandler.attempt, GithubHandler.dispatch.
    rewrite (bool_decide_eq_false_2 (Some "pull_request" = Some "push")) by discriminate.
    rewrite bool_decide_eq_true_2 by reflexivity.
    unfold GithubHandler.handlePullRequestEvent. rewrite Hact, Hmissing.
    cbn [negb deref]. unfold bind, throw.
    eexists _, _. split; [reflexivity|]. split; [reflexivity|].
    now rewrite !posts_console.
  - rewrite processGithubEvent_run.
    unfold GithubHandler.attempt, GithubHandler.dispatch.
    rewrite (bool_decide_eq_false_2 (Some "issues" = Some "push")) by discriminate.
    rewrite (bool_decide_eq_false_2 (Some "issues" = Some "pull_request")) by discriminate.
    rewrite bool_decide_eq_true_2 by reflexivity.
    unfold GithubHandler.handleIssuesEvent. rewrite Hact, Hmissing.
    cbn [negb deref]. unfold bind, throw.
    eexists _, _. split; [reflexivity|]. split; [reflexivity|].
    now rewrite !posts_console.
Qed.

End OwnList.

Lemma malformed_review_reports_error_witness :
  body_issue Sample.hollow_issue_body = None /\
  exists r t',
    GithubHandler.processGithubEvent Sample.env Sample.axios_ok Json.stringify
      Sample.hollow_issue_body (Some "issues") [] = (Ret r, t') /\
    result_status r = "error" /\ posts t' = posts [].
Proof.
  split; [reflexivity|].
  destruct (malformed_review_reports_error Sample.env Sample.axios_ok Json.stringify
              Sample.hollow_issue_body [] (or_introl eq_refl)) as [_ H].
  apply H. reflexivity.
Defined.

(** ** The answer of the GitHub route *)

Section GithubAnswer.

Context (env : gmap string string)
        (axios : list effect -> axios_request -> outcome clickup_task)
        (JSON_stringify : nat -> github_body -> string) (now : string).

(** Once the signature check has passed, the 200 answer always carries the
    processor's own status and message and echoes the event type and the
    delivery id (each when the header is there) before the timestamp.  The
    route's own catch-all answer, "Webhook received but processing failed",
    is never produced, because the processor never throws. *)
Theorem webhook_answer_echoes_delivery (req : request github_body) (t t1 : list effect) :
  GithubRoute.verifyGithubSignature env JSON_stringify req
    (t ++ [Console LOG [Text ("Received GitHub " +:+ show (headers req !! "x-github-event") +:+
                              " event (" +:+ show (headers req !! "x-github-delivery") +:+
                              ")")]])
  = (Ret true, t1) ->
  exists r t',
    GithubHandler.processGithubEvent env axios JSON_stringify (body req)
      (headers req !! "x-github-event") t1 = (Ret r, t') /\
    GithubRoute.webhook env axios JSON_stringify now req t
    = (Ret (Response 200 (result_status r) (result_message r)
              (field "eventType" (headers req !! "x-github-event") ++
               field "deliveryId" (headers req !! "x-github-delivery") ++
               [("timestamp", now)])), t').
Proof.
  intros Hverify.
  destruct (processGithubEvent_returns env axios JSON_stringify (body req)
              (headers req !! "x-github-event") t1) as (r & t' & Hrun).
  exists r, t'. split; [exact Hrun|].
  unfold GithubRoute.webhook. cbv zeta.
  unfold bind at 1. unfold console_log at 1, emit. unfold bind at 1. rewrite Hverify.
  cbn [negb]. unfold try_catch at 1. unfold bind at 1. rewrite Hrun. reflexivity.
Qed.

End GithubAnswer.

Lemma webhook_answer_echoes_delivery_witness :
  fst (GithubRoute.webhook Sample.env Sample.axios_ok Json.stringify Sample.now
         (Sample.signed_request Sample.good_signature) [])
  = Ret (Response 200 "success" "GitHub push event processed successfully"
           [("eventType", "push");
            ("deliveryId", "72d3162e-cc78-11e3-81ab-4c9367dc0958");
            ("timestamp", Sample.now)]).
Proof.
  destruct (webhook_answer_echoes_delivery Sample.env Sample.axios_ok Json.stringify
              Sample.now (Sample.signed_request Sample.good_signature) []
              [Console LOG
                 [Text "Received GitHub push event (72d3162e-cc78-11e3-81ab-4c9367dc0958)"]])
    as (r & t' & Hrun & Hanswer); [vm_compute; reflexivity|].
  rewrite Hanswer. cbn [fst].
  assert (Hr : Ret r = Ret {| result_status := "success";
                             result_message := "GitHub push event processed successfully" |}).
  { pose proof (f_equal fst Hrun) as H1. cbn [fst] in H1.
    rewrite <- H1. vm_compute. reflexivity. }
  injection Hr as ->. vm_compute. reflexivity.
Defined.
